(** * GitHubSentinel: the LLM request gateway

    A shallow embedding of [src/proxy_llm.py] and [src/llm.py]: the two
    gateway classes [LLM], their helper [_get_response] and the retrying
    [CustomHTTPClient], together with the parts of the Python runtime and
    of [requests]/[urllib3] that the gateway's behaviour depends on; and
    of [src/hacker_news_client.py], which fetches the front page of Hacker
    News and exports its stories, over parsed HTML.

    Python values are the values of [json]; exceptions are explicit
    results; the file system, the process environment, the network and the
    log are fields of an explicit [World] threaded through a state and
    exception monad. *)

From Stdlib Require Import ZArith String Ascii List Lia DecimalString.
From stdpp Require Import base option list gmap strings.

Local Open Scope string_scope.
Local Open Scope Z_scope.

(** ** Python values *)

(** The values the gateway handles: what [json.loads] produces and what
    [json.dump] consumes. A [dict] keeps its insertion order, so it is an
    association list; numbers are restricted to integers, the only ones the
    gateway builds, and it never inspects a number it receives beyond its
    truth value. Text is held as its UTF-8 bytes. *)
#[warnings="-register-all"] Inductive json : Type :=
  | JNull
  | JBool (b : bool)
  | JNum (n : Z)
  | JStr (s : string)
  | JArr (items : list json)
  | JObj (fields : list (string * json)).

(** The exceptions that can occur on the modelled paths. *)
Inductive conn_error : Type :=
  | ConnectTimeoutError
  | NewConnectionError
  | ReadTimeoutError
  | ProtocolError.

Inductive request_exception : Type :=
  | RetryError
  | ConnectTimeout
  | ReadTimeout
  | ConnectionError
  | HTTPError (status : Z)
  | JSONDecodeError.

Inductive exn : Type :=
  | AttributeError (type_name attr : string)
  | TypeError (type_name : string)
  | KeyError (key : string)
  | IndexError
  | ValueError (msg : string)
  | OSError (path : string)
  | MaxRetryError (reason : option conn_error)
  | Urllib3Error (err : conn_error)
  | RequestException (kind : request_exception)
  | OpenAIError.

Definition type_name (v : json) : string :=
  match v with
  | JNull => "NoneType"
  | JBool _ => "bool"
  | JNum _ => "int"
  | JStr _ => "str"
  | JArr _ => "list"
  | JObj _ => "dict"
  end.

(** Python truth value: [None], [False], [0], the empty string, the empty
    list and the empty dict are false. *)
Definition truthy (v : json) : bool :=
  match v with
  | JNull => false
  | JBool b => b
  | JNum n => negb (n =? 0)
  | JStr s => negb (String.eqb s "")
  | JArr items => match items with [] => false | _ => true end
  | JObj fields => match fields with [] => false | _ => true end
  end.

Fixpoint dict_lookup (key : string) (fields : list (string * json)) : option json :=
  match fields with
  | [] => None
  | (k, v) :: rest => if String.eqb k key then Some v else dict_lookup key rest
  end.

(** ** The state and exception monad *)

Inductive res (A : Type) : Type :=
  | Ret (a : A)
  | Raise (e : exn).
Arguments Ret {A} a.
Arguments Raise {A} e.

Definition M (St A : Type) : Type := St -> res A * St.

Definition ret {St A : Type} (a : A) : M St A := fun s => (Ret a, s).

Definition raise {St A : Type} (e : exn) : M St A := fun s => (Raise e, s).

Definition bind {St A B : Type} (m : M St A) (k : A -> M St B) : M St B :=
  fun s =>
    match m s with
    | (Ret a, s') => k a s'
    | (Raise e, s') => (Raise e, s')
    end.

(** [try: m except <catches>: h]. *)
Definition try_except {St A : Type} (m : M St A) (catches : exn -> bool)
    (h : exn -> M St A) : M St A :=
  fun s =>
    match m s with
    | (Ret a, s') => (Ret a, s')
    | (Raise e, s') => if catches e then h e s' else (Raise e, s')
    end.

Definition modify {St : Type} (f : St -> St) : M St unit := fun s => (Ret tt, f s).

Definition gets {St A : Type} (f : St -> A) : M St A := fun s => (Ret (f s), s).

Definition lift_res {St A : Type} (r : res A) : M St A := fun s => (r, s).

Notation "'let!' x ':=' m 'in' k" := (bind m (fun x => k))
  (at level 10, x name, m at level 100, k at level 200).
Notation "'do!' m 'in' k" := (bind m (fun _ => k))
  (at level 10, m at level 100, k at level 200).

(** [except Exception] and [except requests.exceptions.RequestException]. *)
Definition any_Exception (e : exn) : bool := true.

Definition is_RequestException (e : exn) : bool :=
  match e with RequestException _ => true | _ => false end.

(** ** Operations on Python values *)

(** [v.get(key, default)]: only a dict has the method. *)
Definition py_get (v : json) (key : string) (dflt : json) : res json :=
  match v with
  | JObj fields =>
      Ret (match dict_lookup key fields with Some x => x | None => dflt end)
  | _ => Raise (AttributeError (type_name v) "get")
  end.

(** [v[key]] for a string key. *)
Definition py_getitem (v : json) (key : string) : res json :=
  match v with
  | JObj fields =>
      match dict_lookup key fields with
      | Some x => Ret x
      | None => Raise (KeyError key)
      end
  | _ => Raise (TypeError (type_name v))
  end.

(** [v[0]]: the first item of a list, the first character of a string; a
    dict read from JSON has string keys only, so the integer key is
    missing. *)
Definition py_getitem0 (v : json) : res json :=
  match v with
  | JArr (x :: _) => Ret x
  | JArr [] => Raise IndexError
  | JStr (String c _) => Ret (JStr (String c EmptyString))
  | JStr EmptyString => Raise IndexError
  | JObj _ => Raise (KeyError "0")
  | _ => Raise (TypeError (type_name v))
  end.

(** [v.text]: no value that [response.json()] returns has the attribute. *)
Definition py_getattr_text (v : json) : res json :=
  Raise (AttributeError (type_name v) "text").

(** ** [json.dump(obj, f, indent=4, ensure_ascii=False)] *)

Definition dquote : ascii := "034"%char.

Definition newline : ascii := "010"%char.

Definition hex_digit (n : nat) : ascii :=
  nth n (list_ascii_of_string "0123456789abcdef") "0"%char.

(** The escape table of the encoder with [ensure_ascii=False]: the quote,
    the backslash and the control characters below 0x20. *)
Definition escape_char (c : ascii) : string :=
  let n := nat_of_ascii c in
  if Nat.eqb n 34 then String "\" (String dquote "")
  else if Nat.eqb n 92 then "\\"
  else if Nat.eqb n 10 then "\n"
  else if Nat.eqb n 13 then "\r"
  else if Nat.eqb n 9 then "\t"
  else if Nat.eqb n 8 then "\b"
  else if Nat.eqb n 12 then "\f"
  else if Nat.ltb n 32 then
    "\u00" +:+ String (hex_digit (Nat.div n 16)) (String (hex_digit (Nat.modulo n 16)) "")
  else String c "".

Fixpoint escape_chars (s : string) : string :=
  match s with
  | EmptyString => ""
  | String c rest => escape_char c +:+ escape_chars rest
  end.

Definition encode_basestring (s : string) : string :=
  String dquote (escape_chars s) +:+ String dquote "".

Definition int_repr (n : Z) : string := NilZero.string_of_int (Z.to_int n).

Fixpoint spaces (n : nat) : string :=
  match n with
  | O => ""
  | S n' => String " " (spaces n')
  end.

Definition newline_indent (level : nat) : string :=
  String newline (spaces (4 * level)).

Fixpoint join (sep : string) (parts : list string) : string :=
  match parts with
  | [] => ""
  | [p] => p
  | p :: rest => p +:+ sep +:+ join sep rest
  end.

Fixpoint iterencode (level : nat) (v : json) : string :=
  match v with
  | JNull => "null"
  | JBool true => "true"
  | JBool false => "false"
  | JNum n => int_repr n
  | JStr s => encode_basestring s
  | JArr [] => "[]"
  | JArr items =>
      "[" +:+ newline_indent (S level)
      +:+ join ("," +:+ newline_indent (S level)) (map (iterencode (S level)) items)
      +:+ newline_indent level +:+ "]"
  | JObj [] => "{}"
  | JObj fields =>
      "{" +:+ newline_indent (S level)
      +:+ join ("," +:+ newline_indent (S level))
            (map (fun kv : string * json =>
                    match kv with
                    | (k, x) => encode_basestring k +:+ ": " +:+ iterencode (S level) x
                    end) fields)
      +:+ newline_indent level +:+ "}"
  end.

Definition json_dumps_indent4 (v : json) : string := iterencode 0 v.

(** ** The world outside the interpreter *)

(** One HTTP request as [requests] hands it to the connection pool. Of the
    session headers only those the gateway sets itself are recorded. *)
Record Request : Type := mkRequest {
  r_method : string;
  r_url : string;
  r_headers : list (string * string);
  r_proxies : list (string * string);
  r_json : json;
  r_timeout : Z
}.

(** What one transmission attempt meets: a response with its status, its
    [Retry-After] header in seconds when it has one, and its body parsed as
    JSON when it parses; or a failure below HTTP (refused connection,
    time-out, broken connection). *)
Inductive Reply : Type :=
  | HttpReply (status : Z) (retry_after : option nat) (body : option json)
  | ConnFailure (err : conn_error).

(** What the OpenAI SDK hands back from [chat.completions.create]: a
    completion whose choices each carry an optional text, or an error. *)
Inductive SdkReply : Type :=
  | SdkCompletion (choices : list (option string))
  | SdkError.

(** Calls that leave the process, in the order they are made. *)
Inductive NetCall : Type :=
  | HttpCall (req : Request)
  | SdkCall (data : json).

(** The backends, mocked or real: the reply to a call is a function of the
    number of calls already made and of the call itself. *)
Record Backend : Type := mkBackend {
  http_server : nat -> Request -> Reply;
  sdk_server : nat -> json -> SdkReply
}.

Inductive level : Type := DEBUG | INFO | ERROR.

(** A log record: the literal text of the message and the value or the
    exception formatted into it. *)
Inductive log_arg : Type :=
  | NoArg
  | ExnArg (e : exn)
  | ValArg (v : json).

Record LogEntry : Type := mkLog {
  log_level : level;
  log_text : string;
  log_payload : log_arg
}.

Record World : Type := mkWorld {
  files : gmap string string;      (* readable files and their text *)
  unwritable : gset string;        (* paths that cannot be opened for writing *)
  environ : gmap string string;    (* the process environment *)
  net : list NetCall;              (* calls made so far, oldest first *)
  sleeps : list nat;               (* delays waited between attempts, in seconds *)
  log : list LogEntry              (* records written so far, oldest first *)
}.

Definition with_files (f : gmap string string) (w : World) : World :=
  mkWorld f (unwritable w) (environ w) (net w) (sleeps w) (log w).

Definition with_net (n : list NetCall) (w : World) : World :=
  mkWorld (files w) (unwritable w) (environ w) n (sleeps w) (log w).

Definition with_sleeps (s : list nat) (w : World) : World :=
  mkWorld (files w) (unwritable w) (environ w) (net w) s (log w).

Definition with_log (l : list LogEntry) (w : World) : World :=
  mkWorld (files w) (unwritable w) (environ w) (net w) (sleeps w) l.

(** [LOG.info], [LOG.debug], [LOG.error]. *)
Definition LOG (lv : level) (text : string) (payload : log_arg) : M World unit :=
  modify (fun w => with_log (log w ++ [mkLog lv text payload]) w).

(** [with open(path, "r", encoding='utf-8') as file: file.read()]. *)
Definition read_file (path : string) : M World string :=
  fun w =>
    match files w !! path with
    | Some text => (Ret text, w)
    | None => (Raise (OSError path), w)
    end.

(** [with open(path, "w+") as f: f.write(text)]: the file is created or
    replaced, unless the path cannot be opened for writing. *)
Definition write_file (path : string) (text : string) : M World unit :=
  fun w =>
    if bool_decide (path ∈ unwritable w)
    then (Raise (OSError path), w)
    else (Ret tt, with_files (<[path := text]> (files w)) w).

(** [os.getenv(name)]. *)
Definition os_getenv (name : string) : M World (option string) :=
  gets (fun w => environ w !! name).

(** [time.sleep], recorded. *)
Definition sleep (seconds : nat) : M World unit :=
  modify (fun w => with_sleeps (sleeps w ++ [seconds]) w).

Section Transport.

Context (backend : Backend).

(** One transmission: the request leaves the process and the backend
    answers. *)
Definition transmit (req : Request) : World -> Reply * World :=
  fun w =>
    (http_server backend (length (net w)) req,
     with_net (net w ++ [HttpCall req]) w).

(** *** [urllib3.util.retry.Retry]

    The gateway configures the retry policy; what the policy means is
    [urllib3]'s: [is_retry], [increment] (with its test [is_exhausted]),
    [get_backoff_time] and [sleep] below follow the library's methods of the
    same names, for a policy on which only [total] is set. *)
Record Retry : Type := mkRetry {
  total : nat;
  backoff_factor : nat;
  status_forcelist : list Z;
  allowed_methods : list string;
  history_len : nat   (* failures met so far on this request *)
}.

Definition RETRY_AFTER_STATUS_CODES : list Z := [413; 429; 503].

Definition DEFAULT_BACKOFF_MAX : nat := 120.

Definition is_method_retryable (r : Retry) (method : string) : bool :=
  match allowed_methods r with
  | [] => true
  | ms => existsb (String.eqb method) ms
  end.

Definition is_retry (r : Retry) (method : string) (status : Z) (has_retry_after : bool) : bool :=
  if negb (is_method_retryable r method) then false
  else if existsb (Z.eqb status) (status_forcelist r) then true
  else negb (Nat.eqb (total r) 0) && has_retry_after
       && existsb (Z.eqb status) RETRY_AFTER_STATUS_CODES.

(** [increment]: one retry is used up and the failure enters the history;
    [None] is [MaxRetryError], raised when the count would fall below zero. *)
Definition increment (r : Retry) : option Retry :=
  match total r with
  | O => None
  | S t => Some (mkRetry t (backoff_factor r) (status_forcelist r)
                   (allowed_methods r) (S (history_len r)))
  end.

Definition get_backoff_time (r : Retry) : nat :=
  if Nat.leb (history_len r) 1 then 0%nat
  else Nat.min DEFAULT_BACKOFF_MAX (backoff_factor r * 2 ^ (history_len r - 1))%nat.

(** [Retry.sleep(response)]: a non-zero [Retry-After] is obeyed, otherwise
    the backoff applies. *)
Definition retry_sleep (r : Retry) (retry_after : option nat) : M World unit :=
  match retry_after with
  | Some (S s) => sleep (S s)
  | _ => sleep (get_backoff_time r)
  end.

Definition is_read_error (err : conn_error) : bool :=
  match err with
  | ReadTimeoutError | ProtocolError => true
  | _ => false
  end.

(** [HTTPConnectionPool.urlopen]: transmit; on a failure or on a status the
    policy retries, use up one retry, sleep and transmit the same request
    again; when the retries are used up, [MaxRetryError]. [budget] is
    [total r], carried apart so that the recursion is structural; the
    successor policy [r'] is what [increment r] returns. *)
Fixpoint urlopen_loop (budget : nat) (r : Retry) (req : Request) (w : World)
    : res (Z * option json) * World :=
  let '(reply, w1) := transmit req w in
  match reply with
  | ConnFailure err =>
      if is_read_error err && negb (is_method_retryable r (r_method req))
      then (Raise (Urllib3Error err), w1)
      else
        match budget with
        | O => (Raise (MaxRetryError (Some err)), w1)
        | S budget' =>
            let r' := mkRetry budget' (backoff_factor r) (status_forcelist r)
                        (allowed_methods r) (S (history_len r)) in
            let '(_, w2) := retry_sleep r' None w1 in
            urlopen_loop budget' r' req w2
        end
  | HttpReply status retry_after body =>
      let has_retry_after :=
        match retry_after with Some _ => true | None => false end in
      if is_retry r (r_method req) status has_retry_after then
        match budget with
        | O => (Raise (MaxRetryError None), w1)
        | S budget' =>
            let r' := mkRetry budget' (backoff_factor r) (status_forcelist r)
                        (allowed_methods r) (S (history_len r)) in
            let '(_, w2) := retry_sleep r' retry_after w1 in
            urlopen_loop budget' r' req w2
        end
      else (Ret (status, body), w1)
  end.

Definition urlopen (r : Retry) (req : Request) : M World (Z * option json) :=
  urlopen_loop (total r) r req.

(** *** [requests]

    [HTTPAdapter.send] turns what [urllib3] raises into the exceptions of
    [requests], all of them [RequestException]s. *)
Definition adapter_exception (e : exn) : exn :=
  match e with
  | MaxRetryError (Some ConnectTimeoutError) => RequestException ConnectTimeout
  | MaxRetryError None => RequestException RetryError
  | MaxRetryError (Some _) => RequestException ConnectionError
  | Urllib3Error ReadTimeoutError => RequestException ReadTimeout
  | Urllib3Error _ => RequestException ConnectionError
  | other => other
  end.

(** The client object of both gateway files: a [requests.Session] with its
    headers, its proxies and the retry policy of its mounted adapter, and
    the time-out. *)
Record CustomHTTPClient : Type := mkClient {
  session_headers : list (string * string);
  session_proxies : list (string * string);
  retry_strategy : Retry;
  client_timeout : Z
}.

(** [self.session.request(method, url, json=json_data, timeout=self.timeout)]. *)
Definition session_request (c : CustomHTTPClient) (method url : string) (json_data : json)
    : M World (Z * option json) :=
  let req := mkRequest method url (session_headers c) (session_proxies c)
               json_data (client_timeout c) in
  try_except (urlopen (retry_strategy c) req) any_Exception
    (fun e => raise (adapter_exception e)).

(** [response.raise_for_status()]. *)
Definition raise_for_status (status : Z) : M World unit :=
  if (400 <=? status) && (status <? 600)
  then raise (RequestException (HTTPError status))
  else ret tt.

(** [response.json()]. *)
Definition response_json (body : option json) : M World json :=
  match body with
  | Some v => ret v
  | None => raise (RequestException JSONDecodeError)
  end.

(** [CustomHTTPClient.request], the same text in both files:
<<
    try:
        response = self.session.request(method, url, json=json_data, timeout=self.timeout)
        response.raise_for_status()
        return response.json()
    except requests.exceptions.RequestException as e:
        LOG.error(f"Request failed: {e}")
        return {}
>> *)
Definition request (c : CustomHTTPClient) (method url : string) (json_data : json)
    : M World json :=
  try_except
    (let! response := session_request c method url json_data in
     do! raise_for_status (fst response) in
     response_json (snd response))
    is_RequestException
    (fun e =>
       do! LOG ERROR "Request failed: " (ExnArg e) in
       ret (JObj [])).

(** [client.chat.completions.create] of the OpenAI SDK, called with the
    entries of [data] as keyword arguments. *)
Definition chat_completions_create (data : json) : M World (list (option string)) :=
  fun w =>
    let w1 := with_net (net w ++ [SdkCall data]) w in
    match sdk_server backend (length (net w)) data with
    | SdkCompletion choices => (Ret choices, w1)
    | SdkError => (Raise OpenAIError, w1)
    end.

(** [response.choices[0].message.content] on the SDK's completion. *)
Definition first_choice_content (choices : list (option string)) : res json :=
  match choices with
  | [] => Raise IndexError
  | Some text :: _ => Ret (JStr text)
  | None :: _ => Ret JNull
  end.

End Transport.

(** The two kinds of client a gateway holds. *)
Inductive Client : Type :=
  | OpenAI
  | HTTP (c : CustomHTTPClient).

(** [OpenAI()]: the SDK refuses to build a client without a key in the
    environment. *)
Definition OpenAI_init : M World Client :=
  let! key := os_getenv "OPENAI_API_KEY" in
  match key with
  | Some _ => ret OpenAI
  | None => raise OpenAIError
  end.

Section Clients.

Context (backend : Backend).

(** Method lookup on a client: each kind has only its own methods. *)
Definition client_chat_completions_create (client : Client) (data : json)
    : M World (list (option string)) :=
  match client with
  | OpenAI => chat_completions_create backend data
  | HTTP _ => raise (AttributeError "CustomHTTPClient" "chat")
  end.

Definition client_request (client : Client) (method url : string) (json_data : json)
    : M World json :=
  match client with
  | HTTP c => request backend c method url json_data
  | OpenAI => raise (TypeError "OpenAI.request")
  end.

End Clients.

(** A Python object and the world around it: what a method can read and
    write. *)
Record Sys (Obj : Type) : Type := mkSys {
  self : Obj;
  world : World
}.
Arguments mkSys {Obj} self world.
Arguments self {Obj} s.
Arguments world {Obj} s.

(** Run a computation on the world from inside a method. *)
Definition in_world {Obj A : Type} (m : M World A) : M (Sys Obj) A :=
  fun s => let '(r, w') := m (world s) in (r, mkSys (self s) w').

(** [not prompt] for an optional string argument: [None] and the empty
    string are false values. *)
Definition py_not (prompt : option string) : bool :=
  match prompt with
  | None => true
  | Some s => String.eqb s ""
  end.

(** [if not prompt: prompt = default_prompt]. *)
Definition prompt_or (prompt : option string) (default_prompt : string) : string :=
  if py_not prompt then default_prompt
  else match prompt with Some p => p | None => default_prompt end.

Definition message (role content : string) : json :=
  JObj [("role", JStr role); ("content", JStr content)].

Definition RETRY_STATUSES : list Z := [429; 500; 502; 503; 504].

Definition RETRY_METHODS : list string :=
  ["HEAD"; "GET"; "PUT"; "DELETE"; "OPTIONS"; "TRACE"; "POST"].

(** ** [src/proxy_llm.py] *)

Module proxy_llm.

Definition API_URL : string := "https://api.yesapikey.com/v1/chat/completions".

Definition OLLAMA_API_URL : string := "http://localhost:11434/api/chat".

Definition DEFAULT_MAX_RETRIES : nat := 5.

Definition DEFAULT_TIMEOUT : Z := 2000.

(** [CustomHTTPClient.__init__]: the two headers are set only for a key
    that is a true value; the proxies only for such a URL. *)
Definition CustomHTTPClient_init (api_key proxy_url : option string)
    (max_retries : nat) (timeout : Z) : CustomHTTPClient :=
  mkClient
    (match api_key with
     | Some k =>
         if String.eqb k "" then []
         else [("Authorization", "Bearer " +:+ k); ("Content-Type", "application/json")]
     | None => []
     end)
    (match proxy_url with
     | Some u => if String.eqb u "" then [] else [("http", u); ("https", u)]
     | None => []
     end)
    (mkRetry max_retries 1 RETRY_STATUSES RETRY_METHODS 0)
    timeout.

Record LLM : Type := mkLLM {
  max_retries : nat;
  timeout : Z;
  prompt_file_path : string;
  model_type : string;
  model_name : string;
  client : option Client;        (* unset for a model type the constructor does not know *)
  proxy_url : option string;
  api_key : option string;
  default_prompt : string
}.

(** [self.client]. *)
Definition getattr_client : M (Sys LLM) Client :=
  fun s =>
    match client (self s) with
    | Some c => (Ret c, s)
    | None => (Raise (AttributeError "LLM" "client"), s)
    end.

(** [LLM.__init__]; an argument left out is [None] and takes its default.
    [LOG.add] only installs a log file and is left out. *)
Definition LLM_init (max_retries : option nat) (model_type model_name : option string)
    (prompt_file_path : option string) (timeout : option Z) : M World LLM :=
  let max_retries := default DEFAULT_MAX_RETRIES max_retries in
  let model_type := default "openai" model_type in
  let model_name := default "gpt-4o-mini" model_name in
  let prompt_file_path := default "prompts/github_openai_report_prompt.txt" prompt_file_path in
  let timeout := default DEFAULT_TIMEOUT timeout in
  let! parts :=
    if String.eqb model_type "openai" then
      let! c := OpenAI_init in
      ret (Some c, None, None)
    else if String.eqb model_type "yesapi" then
      let! key := os_getenv "OPENAI_API_KEY" in
      ret (Some (HTTP (CustomHTTPClient_init key (Some API_URL) max_retries timeout)),
           Some API_URL, key)
    else if String.eqb model_type "ollama" then
      ret (Some (HTTP (CustomHTTPClient_init None (Some OLLAMA_API_URL) max_retries timeout)),
           Some OLLAMA_API_URL, None)
    else ret (None, None, None) in
  let! text := read_file prompt_file_path in
  ret (mkLLM max_retries timeout prompt_file_path model_type model_name
         (fst (fst parts)) (snd (fst parts)) (snd parts) text).

Section Gateway.

Context (backend : Backend).

Definition _get_response (client : Client) (model_type model_name : string)
    (messages : json) : M World json :=
  let data :=
    if String.eqb model_type "ollama" then
      JObj [("model", JStr model_name); ("messages", messages);
            ("max_tokens", JNum 10000); ("context_length", JNum 10000);
            ("top_p", JNum 1); ("temperature", JNum 1); ("stream", JBool false)]
    else
      JObj [("model", JStr model_name); ("messages", messages);
            ("temperature", JNum 1); ("max_tokens", JNum 100); ("top_p", JNum 1)] in
  let request_api_url :=
    if String.eqb model_type "ollama" then OLLAMA_API_URL else API_URL in
  try_except
    (if String.eqb model_type "openai" then
       let! response := client_chat_completions_create backend client data in
       do! LOG DEBUG "GPT response: %s" NoArg in
       lift_res (first_choice_content response)
     else
       let! response := client_request backend client "POST" request_api_url data in
       if String.eqb model_type "yesapi" then
         let! choices := lift_res (py_get response "choices" JNull) in
         if truthy choices then
           let! choice := lift_res (py_getitem0 choices) in
           let! msg := lift_res (py_getitem choice "message") in
           lift_res (py_getitem msg "content")
         else
           do! LOG ERROR "No choices found in the response." NoArg in
           ret (JStr "")
       else if String.eqb model_type "ollama" then
         let! msg := lift_res (py_get response "message" (JObj [])) in
         let! message_content := lift_res (py_get msg "content" JNull) in
         if truthy message_content then ret message_content
         else
           let! text := lift_res (py_getattr_text response) in
           do! LOG ERROR "无法从响应中提取报告内容。" (ValArg text) in
           raise (ValueError "Ollama API 返回的响应结构无效")
       else ret (JStr ""))
    any_Exception
    (fun e =>
       do! LOG ERROR "An error occurred while getting the response: " (ExnArg e) in
       ret (JStr "")).

Definition generate_github_daily_report (markdown_content : string)
    (prompt : option string) (dry_run : bool) : M (Sys LLM) json :=
  let! default_prompt := gets (fun s => default_prompt (self s)) in
  let prompt := prompt_or prompt default_prompt in
  let messages := JArr [message "system" prompt; message "user" markdown_content] in
  if dry_run then
    do! in_world (LOG INFO "Dry run mode enabled. Saving prompt to file." NoArg) in
    let! path := gets (fun s => prompt_file_path (self s)) in
    do! in_world (write_file path (json_dumps_indent4 messages)) in
    do! in_world (LOG DEBUG ("Prompt saved to " +:+ path) NoArg) in
    ret (JStr "DRY RUN")
  else
    let! model_type := gets (fun s => model_type (self s)) in
    let! model_name := gets (fun s => model_name (self s)) in
    do! in_world (LOG INFO ("Starting report generation using " +:+ model_type
                            +:+ "--" +:+ model_name +:+ " model.") NoArg) in
    let! client := getattr_client in
    let! response_content :=
      in_world (_get_response client model_type model_name messages) in
    if truthy response_content then
      do! in_world (LOG DEBUG "GPT response: " (ValArg response_content)) in
      ret response_content
    else
      do! in_world (LOG ERROR "Failed to get a valid response from the GPT model." NoArg) in
      ret (JStr "").

Definition generate_hn_daily_report (markdown_content : string)
    (prompt : option string) (dry_run : bool) : M (Sys LLM) json :=
  let! default_prompt := gets (fun s => default_prompt (self s)) in
  let prompt := prompt_or prompt default_prompt in
  let messages := JArr [message "system" prompt; message "user" markdown_content] in
  if dry_run then
    do! in_world (LOG INFO "Dry run mode enabled. Saving prompt to file." NoArg) in
    let! path := gets (fun s => prompt_file_path (self s)) in
    do! in_world (write_file path (json_dumps_indent4 messages)) in
    do! in_world (LOG DEBUG ("Prompt saved to " +:+ path) NoArg) in
    ret (JStr "DRY RUN")
  else
    let! model_type := gets (fun s => model_type (self s)) in
    let! model_name := gets (fun s => model_name (self s)) in
    do! in_world (LOG INFO ("Starting report generation using " +:+ model_type
                            +:+ "--" +:+ model_name +:+ " model.") NoArg) in
    let! client := getattr_client in
    let! response_content :=
      in_world (_get_response client model_type model_name messages) in
    if truthy response_content then
      do! in_world (LOG DEBUG "GPT response: " (ValArg response_content)) in
      ret response_content
    else
      do! in_world (LOG ERROR "Failed to get a valid response from the GPT model." NoArg) in
      ret (JStr "").

End Gateway.

End proxy_llm.

(** ** [src/llm.py] *)

Module llm.

Definition API_URL : string := "https://api.yesapikey.com/v1/chat/completions".

Definition MODEL_NAME : string := "gpt-4o-mini".

Definition DEFAULT_MAX_RETRIES : nat := 5.

Definition DEFAULT_TIMEOUT : Z := 30.

(** [str(api_key)] inside the f-string of the header. *)
Definition str_of_key (api_key : option string) : string :=
  match api_key with
  | Some k => k
  | None => "None"
  end.

(** [CustomHTTPClient.__init__]: here the headers are set whatever the key. *)
Definition CustomHTTPClient_init (api_key proxy_url : option string)
    (max_retries : nat) (timeout : Z) : CustomHTTPClient :=
  mkClient
    [("Authorization", "Bearer " +:+ str_of_key api_key);
     ("Content-Type", "application/json")]
    (match proxy_url with
     | Some u => if String.eqb u "" then [] else [("http", u); ("https", u)]
     | None => []
     end)
    (mkRetry max_retries 1 RETRY_STATUSES RETRY_METHODS 0)
    timeout.

Record LLM : Type := mkLLM {
  proxy_url : option string;
  max_retries : nat;
  timeout : Z;
  api_key : option string;
  client : Client;
  default_prompt : string
}.

(** [LLM.__init__]. *)
Definition LLM_init (max_retries : option nat) (timeout : option Z) : M World LLM :=
  let max_retries := default DEFAULT_MAX_RETRIES max_retries in
  let timeout := default DEFAULT_TIMEOUT timeout in
  let! proxy_url := os_getenv "OPENAI_PROXY_URL" in
  let! api_key := os_getenv "OPENAI_API_KEY" in
  let! client :=
    if py_not proxy_url then OpenAI_init
    else ret (HTTP (CustomHTTPClient_init api_key proxy_url max_retries timeout)) in
  let! text := read_file "./../prompts/report_prompt.txt" in
  ret (mkLLM proxy_url max_retries timeout api_key client text).

Section Gateway.

Context (backend : Backend).

Definition _get_response (client : Client) (messages : json) : M World json :=
  let data :=
    JObj [("model", JStr MODEL_NAME); ("messages", messages);
          ("temperature", JNum 1); ("max_tokens", JNum 1000); ("top_p", JNum 1)] in
  try_except
    (match client with
     | HTTP c =>
         let! response := request backend c "POST" API_URL data in
         let! has_choices :=
           if truthy response then
             let! choices := lift_res (py_get response "choices" JNull) in
             ret (truthy choices)
           else ret false in
         if has_choices : bool then
           let! choices := lift_res (py_getitem response "choices") in
           let! choice := lift_res (py_getitem0 choices) in
           let! msg := lift_res (py_getitem choice "message") in
           lift_res (py_getitem msg "content")
         else
           do! LOG ERROR "No choices found in the response." NoArg in
           ret (JStr "")
     | OpenAI =>
         let! response := chat_completions_create backend data in
         do! LOG DEBUG "GPT response: "
               (ValArg (JArr (map (fun c : option string =>
                                     match c with Some t => JStr t | None => JNull end)
                                response))) in
         lift_res (first_choice_content response)
     end)
    any_Exception
    (fun e =>
       do! LOG ERROR "An error occurred while getting the response: " (ExnArg e) in
       ret (JStr "")).

Definition generate_daily_report (markdown_content : string)
    (prompt : option string) (dry_run : bool) : M (Sys LLM) json :=
  let! default_prompt := gets (fun s => default_prompt (self s)) in
  let prompt := prompt_or prompt default_prompt in
  let messages := JArr [message "system" prompt; message "user" markdown_content] in
  if dry_run then
    do! in_world (LOG INFO "Dry run mode enabled. Saving prompt to file." NoArg) in
    do! in_world (write_file "daily_progress/prompt.txt" (json_dumps_indent4 messages)) in
    do! in_world (LOG DEBUG "Prompt saved to daily_progress/prompt.txt" NoArg) in
    ret (JStr "DRY RUN")
  else
    do! in_world (LOG INFO "Starting report generation using GPT model." NoArg) in
    let! client := gets (fun s => client (self s)) in
    let! response_content := in_world (_get_response client messages) in
    if truthy response_content then
      do! in_world (LOG DEBUG "GPT response: " (ValArg response_content)) in
      ret response_content
    else
      do! in_world (LOG ERROR "Failed to get a valid response from the GPT model." NoArg) in
      ret (JStr "").

End Gateway.

End llm.

(** ** Parsed HTML

    A page as [BeautifulSoup(response.text, 'html.parser')] holds it: text
    nodes, and tags with the list of their classes, their other
    attributes and their children. Comments and the like are left out. *)
#[warnings="-register-all"] Inductive html : Type :=
  | Text (s : string)
  | Tag (name : string) (classes : list string) (attrs : list (string * string))
      (children : list html).

(** Everything below a node, in document order. *)
Fixpoint descendants (n : html) : list html :=
  match n with
  | Text _ => []
  | Tag _ _ _ children => flat_map (fun c => c :: descendants c) children
  end.

Definition is_tag (name : string) (n : html) : bool :=
  match n with
  | Tag nm _ _ _ => String.eqb nm name
  | Text _ => false
  end.

Definition has_class (class_ : string) (n : html) : bool :=
  match n with
  | Tag _ classes _ _ => existsb (String.eqb class_) classes
  | Text _ => false
  end.

(** [n.find_all(name, class_=class_)], [n.find(name, class_=class_)] and
    [n.find(name)]: [find] is [None] when nothing matches. *)
Definition find_all (name class_ : string) (n : html) : list html :=
  filter (fun d => is_tag name d && has_class class_ d) (descendants n).

Definition find_class (name class_ : string) (n : html) : option html :=
  head (find_all name class_ n).

Definition find (name : string) (n : html) : option html :=
  head (filter (is_tag name) (descendants n)).

(** [n.text]: the strings below the node, joined. *)
Fixpoint get_text (n : html) : string :=
  match n with
  | Text s => s
  | Tag _ _ _ children => String.concat "" (map get_text children)
  end.

(** [n.get(key, default)] on the attributes of a tag. *)
Fixpoint attr_lookup (key : string) (attrs : list (string * string)) : option string :=
  match attrs with
  | [] => None
  | (k, v) :: rest => if String.eqb k key then Some v else attr_lookup key rest
  end.

Definition tag_get (n : html) (key dflt : string) : string :=
  match n with
  | Tag _ _ attrs _ => match attr_lookup key attrs with Some v => v | None => dflt end
  | Text _ => dflt
  end.

(** [os.path.join] on POSIX: a component that starts with a slash
    discards what precedes it. *)
Definition starts_with_slash (s : string) : bool :=
  match s with
  | String c _ => Ascii.eqb c "/"
  | EmptyString => false
  end.

Fixpoint ends_with_slash (s : string) : bool :=
  match s with
  | EmptyString => false
  | String c EmptyString => Ascii.eqb c "/"
  | String _ rest => ends_with_slash rest
  end.

Definition path_join2 (path b : string) : string :=
  if starts_with_slash b then b
  else if String.eqb path "" || ends_with_slash path then path +:+ b
  else path +:+ "/" +:+ b.

Definition os_path_join (a : string) (parts : list string) : string :=
  fold_left path_join2 parts a.

(** [os.makedirs(path, exist_ok=True)]: the world keeps no directories;
    creating one fails where nothing can be written. *)
Definition os_makedirs (path : string) : M World unit :=
  fun w =>
    if bool_decide (path ∈ unwritable w)
    then (Raise (OSError path), w)
    else (Ret tt, w).

(** What [requests.get] meets: a page with its status, or a failure below
    HTTP. *)
Inductive PageReply : Type :=
  | Page (status : Z) (soup : html)
  | Unreachable (err : conn_error).

(** [datetime.now()], formatted as the client formats it. *)
Record Clock : Type := mkClock {
  today : string;       (* strftime("%Y-%m-%d") *)
  this_hour : string    (* strftime('%H') *)
}.

(** ** [src/hacker_news_client.py] *)

Module hacker_news_client.

Record story : Type := mkStory {
  title : string;
  link : string
}.

(** The loop of [_parse_stories], [top_stories] being the list built so
    far. *)
Fixpoint parse_rows (soup_stories : list html) (top_stories : list story)
    : res (list story) :=
  match soup_stories with
  | [] => Ret top_stories
  | soup_story :: rest =>
      match find_class "span" "titleline" soup_story with
      | None => Raise (AttributeError "NoneType" "find")
      | Some span =>
          match find "a" span with
          | Some title_tag =>
              parse_rows rest
                (top_stories ++ [mkStory (get_text title_tag) (tag_get title_tag "href" "")])
          | None => parse_rows rest top_stories
          end
      end
  end.

Definition _parse_stories (soup : html) : res (list story) :=
  parse_rows (find_all "tr" "athing" soup) [].

Definition BASE_URL : string := "https://news.ycombinator.com/".

Section Client.

Context (site : PageReply) (clock : Clock).

(** [requests.get(self.BASE_URL)]: one attempt, no retry. *)
Definition requests_get : M World (Z * html) :=
  match site with
  | Page status soup => ret (status, soup)
  | Unreachable err =>
      raise (adapter_exception
               (if is_read_error err then Urllib3Error err else MaxRetryError (Some err)))
  end.

Definition fetch_hackernews_top_stories : M World (list story) :=
  try_except
    (let! response := requests_get in
     do! raise_for_status (fst response) in
     lift_res (_parse_stories (snd response)))
    is_RequestException
    (fun e =>
       do! LOG ERROR "获取Hacker News的热门新闻失败：" (ExnArg e) in
       ret []).

(** The lines written for the stories, numbered from [story_idx]. *)
Fixpoint story_lines (story_idx : nat) (top_stories : list story) : string :=
  match top_stories with
  | [] => ""
  | story_content :: rest =>
      int_repr (Z.of_nat story_idx) +:+ ". [" +:+ title story_content +:+ "]("
      +:+ link story_content +:+ ")" +:+ String newline ""
      +:+ story_lines (S story_idx) rest
  end.

Definition export_top_stories (date hour : option string) : M World (option string) :=
  do! LOG INFO "准备导出Hacker News的热门新闻。" NoArg in
  let! top_stories := fetch_hackernews_top_stories in
  match top_stories with
  | [] =>
      do! LOG ERROR "无法获取Hacker News的热门新闻。" NoArg in
      ret None
  | _ =>
      let date := match date with Some d => d | None => today clock end in
      let hour := match hour with Some h => h | None => this_hour clock end in
      let dir_path := os_path_join "daily_progress" ["hacker_news"; date] in
      do! os_makedirs dir_path in
      let file_path := os_path_join dir_path [hour +:+ ".md"] in
      do! write_file file_path
            (match top_stories with
             | [] => "No stories found." +:+ String newline ""
             | _ => story_lines 1 top_stories
             end) in
      do! LOG INFO ("Hacker News热门新闻文件生成：" +:+ file_path) NoArg in
      ret (Some file_path)
  end.

End Client.

End hacker_news_client.

Local Close Scope Z_scope.

(** * Definitions for the statements

    What follows names the quantities the lemmas and theorems speak about:
    observations on the transport, on responses and on calls, the retry
    policy the gateways mount, the scripted backends, and the concrete
    gateways, worlds and backends of the examples. *)

(** ** The transport *)

(** The delay [retry_sleep] waits. *)
Definition delay_of (r : Retry) (retry_after : option nat) : nat :=
  match retry_after with
  | Some (S s) => S s
  | _ => get_backoff_time r
  end.

(** A reply that the policy retries whatever is left of its count: a status
    on the force list, or a failure below HTTP, for a method it allows. *)
Definition forced_retry (r : Retry) (method : string) (reply : Reply) : bool :=
  match reply with
  | HttpReply status _ _ =>
      is_method_retryable r method && existsb (Z.eqb status) (status_forcelist r)
  | ConnFailure _ => is_method_retryable r method
  end.

(** The two errors of the transport. *)
Definition transport_exn (e : exn) : bool :=
  match e with
  | MaxRetryError _ | Urllib3Error _ => true
  | _ => false
  end.

(** The backoff as a function of the policy's factor and of the number of
    failures met so far. *)
Definition backoff_time (factor failures : nat) : nat :=
  if Nat.leb failures 1 then 0
  else Nat.min DEFAULT_BACKOFF_MAX (factor * 2 ^ (failures - 1)).

(** A reply without a [Retry-After] header. *)
Definition no_retry_after (reply : Reply) : bool :=
  match reply with
  | HttpReply _ (Some _) _ => false
  | _ => true
  end.

(** The local state a transmission leaves alone. *)
Definition same_local (w w' : World) : Prop :=
  files w' = files w /\ unwritable w' = unwritable w
  /\ environ w' = environ w /\ log w' = log w.

(** The request a client's session sends, and the run of [urlopen] on it. *)
Definition request_of (c : CustomHTTPClient) (method url : string) (json_data : json)
    : Request :=
  mkRequest method url (session_headers c) (session_proxies c) json_data (client_timeout c).

Definition run_urlopen (backend : Backend) (c : CustomHTTPClient) (method url : string)
    (json_data : json) (w : World) : res (Z * option json) * World :=
  urlopen_loop backend (total (retry_strategy c)) (retry_strategy c)
    (request_of c method url json_data) w.

(** The status of a reply, when it is an HTTP response. *)
Definition reply_status (reply : Reply) : option Z :=
  match reply with
  | HttpReply status _ _ => Some status
  | ConnFailure _ => None
  end.

(** ** Responses, conversations and calls *)

(** [choices[0].message.content] of a response of the forwarding proxy. *)
Definition forwarded_content (body : json) : option json :=
  match body with
  | JObj fields =>
      match dict_lookup "choices" fields with
      | Some (JArr (JObj choice :: _)) =>
          match dict_lookup "message" choice with
          | Some (JObj msg) => dict_lookup "content" msg
          | _ => None
          end
      | _ => None
      end
  | _ => None
  end.

(** [message.content] of a response of the local server. *)
Definition local_content (body : json) : option json :=
  match body with
  | JObj fields =>
      match dict_lookup "message" fields with
      | Some (JObj msg) => dict_lookup "content" msg
      | _ => None
      end
  | _ => None
  end.

(** The two-message conversation both gateways build. *)
Definition conversation (system_prompt digest : string) : json :=
  JArr [message "system" system_prompt; message "user" digest].

(** The body a call carries. *)
Definition call_body (call : NetCall) : json :=
  match call with
  | HttpCall req => r_json req
  | SdkCall data => data
  end.

(** The conversation a call carries. *)
Definition call_messages (call : NetCall) : option json :=
  match call_body call with
  | JObj fields => dict_lookup "messages" fields
  | _ => None
  end.

(** The endpoint and the body [proxy_llm._get_response] computes for a
    model type, and the body [llm._get_response] computes. *)
Definition url_for (model_type : string) : string :=
  if String.eqb model_type "ollama" then proxy_llm.OLLAMA_API_URL else proxy_llm.API_URL.

Definition data_for (model_type model_name : string) (messages : json) : json :=
  if String.eqb model_type "ollama" then
    JObj [("model", JStr model_name); ("messages", messages);
          ("max_tokens", JNum 10000); ("context_length", JNum 10000);
          ("top_p", JNum 1); ("temperature", JNum 1); ("stream", JBool false)]
  else
    JObj [("model", JStr model_name); ("messages", messages);
          ("temperature", JNum 1); ("max_tokens", JNum 100); ("top_p", JNum 1)].

Definition llm_data (messages : json) : json :=
  JObj [("model", JStr llm.MODEL_NAME); ("messages", messages);
        ("temperature", JNum 1); ("max_tokens", JNum 1000); ("top_p", JNum 1)].

(** The record [proxy_llm] logs before it calls the backend, and the one
    either gateway logs once it has the answer. *)
Definition start_entry (g : proxy_llm.LLM) : LogEntry :=
  mkLog INFO ("Starting report generation using " +:+ proxy_llm.model_type g
              +:+ "--" +:+ proxy_llm.model_name g +:+ " model.") NoArg.

Definition verdict_entry (v : json) : LogEntry :=
  if truthy v then mkLog DEBUG "GPT response: " (ValArg v)
  else mkLog ERROR "Failed to get a valid response from the GPT model." NoArg.

(** ** The gateways and their backends *)

(** The retry policy both constructors mount: [max_retries] retries, backoff
    factor 1, the five forced statuses, every method. *)
Definition gateway_policy (n : nat) : Retry :=
  mkRetry n 1 RETRY_STATUSES RETRY_METHODS 0.

(** Whether a gateway of [proxy_llm] reaches a backend at all: its client
    must be the one its model type calls for. *)
Definition reaches_backend (cl : Client) (model_type : string) : bool :=
  match cl with
  | OpenAI => String.eqb model_type "openai"
  | HTTP _ => negb (String.eqb model_type "openai")
  end.

(** The effective system prompt, as the gateway resolves it: the caller's
    override when one is given and is not empty, the stored default
    otherwise. *)
Definition effective_prompt (override : option string) (stored : string) : string :=
  match override with
  | Some p => if String.eqb p "" then stored else p
  | None => stored
  end.

(** The delay before the retry that follows the [j]-th failure, for backoff
    factor 1: none after the first failure, then [2 ^ (j - 1)] seconds, at
    most 120. *)
Definition backoff_delay (j : nat) : nat :=
  if Nat.leb j 1 then 0 else Nat.min 120 (2 ^ (j - 1)).

(** The value of a header among those a request carries. *)
Fixpoint header (name : string) (headers : list (string * string)) : option string :=
  match headers with
  | [] => None
  | (k, v) :: rest => if String.eqb k name then Some v else header name rest
  end.

(** The failure kinds the specification names for a call that reached, or
    failed to reach, a backend. *)
Inductive failure_kind : Type := Exhausted | EmptyResponse | InvalidResponseShape.



(** ** Concrete gateways, worlds and backends *)

Definition prompt_path : string := "prompts/github_openai_report_prompt.txt".

Definition stored_prompt : string := "Summarize the following:".

Definition sample_world : World :=
  mkWorld {[ prompt_path := stored_prompt ]} ∅ {[ "OPENAI_API_KEY" := "sk-test" ]} [] [] [].

(** The same world with no key in the environment. *)
Definition keyless_world : World :=
  mkWorld {[ prompt_path := stored_prompt ]} ∅ ∅ [] [] [].

(** The same world with an empty key. *)
Definition empty_key_world : World :=
  mkWorld {[ prompt_path := stored_prompt ]} ∅ {[ "OPENAI_API_KEY" := "" ]} [] [] [].

(** The digest of the specification's scenario. *)
Definition sample_digest : string :=
  "- fix bug #1" +:+ String newline "- add feature #2".

(** The gateways [LLM.__init__] builds in [sample_world]: for the
    forwarding proxy, for the local server, and the one of [llm] behind a
    proxy. *)
Definition forwarded_gateway : proxy_llm.LLM :=
  proxy_llm.mkLLM 5 2000 prompt_path "yesapi" "gpt-4o-mini"
    (Some (HTTP (proxy_llm.CustomHTTPClient_init (Some "sk-test")
                   (Some proxy_llm.API_URL) 5 2000)))
    (Some proxy_llm.API_URL) (Some "sk-test") stored_prompt.

Definition local_gateway : proxy_llm.LLM :=
  proxy_llm.mkLLM 5 2000 prompt_path "ollama" "llama3.2"
    (Some (HTTP (proxy_llm.CustomHTTPClient_init None
                   (Some proxy_llm.OLLAMA_API_URL) 5 2000)))
    (Some proxy_llm.OLLAMA_API_URL) None stored_prompt.

Definition plain_gateway : llm.LLM :=
  llm.mkLLM (Some "http://127.0.0.1:7890") 5 30 (Some "sk-test")
    (HTTP (llm.CustomHTTPClient_init (Some "sk-test") (Some "http://127.0.0.1:7890") 5 30))
    stored_prompt.

(** A response of the forwarding proxy with one choice. *)
Definition completion (c : string) : json :=
  JObj [("id", JStr "chatcmpl-1");
        ("choices",
         JArr [JObj [("index", JNum 0);
                     ("message", JObj [("role", JStr "assistant"); ("content", JStr c)])]])].

(** A backend that answers every call with the same text. *)
Definition echo_backend (c : string) : Backend :=
  mkBackend (fun _ _ => HttpReply 200 None (Some (completion c)))
            (fun _ _ => SdkCompletion [Some c]).

(** A backend that answers 503 to its first [k] calls and then as
    [echo_backend]. *)
Definition flaky_backend (k : nat) (c : string) : Backend :=
  mkBackend (fun i _ => if Nat.ltb i k then HttpReply 503 None None
                        else HttpReply 200 None (Some (completion c)))
            (fun _ _ => SdkError).

(** A backend that answers every call with the same status and no body. *)
Definition failing_backend (status : Z) : Backend :=
  mkBackend (fun _ _ => HttpReply status None None) (fun _ _ => SdkError).

(** A backend that answers every call 503 and asks, in [Retry-After], for
    the same number of seconds. *)
Definition throttling_backend (seconds : nat) : Backend :=
  mkBackend (fun _ _ => HttpReply 503 (Some seconds) None) (fun _ _ => SdkError).

(** A backend that answers every call with 200 and the same body. *)
Definition fixed_backend (body : json) : Backend :=
  mkBackend (fun _ _ => HttpReply 200 None (Some body)) (fun _ _ => SdkError).

(** A response of the local server that lacks [message]. *)
Definition shapeless_body : json :=
  JObj [("model", JStr "llama3.2"); ("done", JBool true)].

(** ** Outcomes of requests, pages and exports *)

(** Whether a status is one [raise_for_status] raises on. *)
Definition is_error_status (status : Z) : bool :=
  ((400 <=? status)%Z && (status <? 600)%Z).






(** What both gateways make of the SDK's answer: the text of the first
    choice when there is one and it is not empty. *)
Definition sdk_report (reply : SdkReply) : json :=
  match reply with
  | SdkCompletion (Some text :: _) => JStr text
  | _ => JStr ""
  end.

(** The title line of a row of the front page, and the story the row
    yields when the title line holds a link. *)
Definition titleline (row : html) : option html := find_class "span" "titleline" row.

Definition row_story (row : html) : option hacker_news_client.story :=
  match titleline row with
  | Some span =>
      match find "a" span with
      | Some a => Some (hacker_news_client.mkStory (get_text a) (tag_get a "href" ""))
      | None => None
      end
  | None => None
  end.

Definition has_titleline (row : html) : bool :=
  match titleline row with Some _ => true | None => false end.

(** Where [export_top_stories] writes for a date and an hour. *)
Definition export_path (date hour : string) : string :=
  os_path_join (os_path_join "daily_progress" ["hacker_news"; date]) [hour +:+ ".md"].

(** The records [export_top_stories] logs. *)
Definition export_begins : LogEntry :=
  mkLog INFO "准备导出Hacker News的热门新闻。" NoArg.

Definition export_done (file_path : string) : LogEntry :=
  mkLog INFO ("Hacker News热门新闻文件生成：" +:+ file_path) NoArg.

(** Reading back one character of a JSON string as the encoder writes
    it: [None] at the closing quote and on anything the encoder does not
    write. *)
Definition hex_value (c : ascii) : option nat :=
  let n := nat_of_ascii c in
  if Nat.leb 48 n && Nat.leb n 57 then Some (n - 48)
  else if Nat.leb 97 n && Nat.leb n 102 then Some (n - 87)
  else None.

Definition unescape (s : string) : option (ascii * string) :=
  match s with
  | EmptyString => None
  | String c rest =>
      if Ascii.eqb c dquote then None
      else if Ascii.eqb c "\" then
        match rest with
        | EmptyString => None
        | String e rest' =>
            if Ascii.eqb e dquote then Some (dquote, rest')
            else if Ascii.eqb e "\" then Some ("\"%char, rest')
            else if Ascii.eqb e "n" then Some (ascii_of_nat 10, rest')
            else if Ascii.eqb e "r" then Some (ascii_of_nat 13, rest')
            else if Ascii.eqb e "t" then Some (ascii_of_nat 9, rest')
            else if Ascii.eqb e "b" then Some (ascii_of_nat 8, rest')
            else if Ascii.eqb e "f" then Some (ascii_of_nat 12, rest')
            else if Ascii.eqb e "u" then
              match rest' with
              | String "0" (String "0" (String h1 (String h2 rest''))) =>
                  match hex_value h1, hex_value h2 with
                  | Some a, Some b => Some (ascii_of_nat (16 * a + b), rest'')
                  | _, _ => None
                  end
              | _ => None
              end
            else None
        end
      else Some (c, rest)
  end.

(** ** Further gateways, worlds and pages *)

(** A backend no call reaches: every connection is refused. *)
Definition unreachable_backend : Backend :=
  mkBackend (fun _ _ => ConnFailure NewConnectionError) (fun _ _ => SdkError).


(** The gateways that talk to the SDK. *)
Definition direct_gateway : proxy_llm.LLM :=
  proxy_llm.mkLLM 5 2000 prompt_path "openai" "gpt-4o-mini" (Some OpenAI) None None
    stored_prompt.

Definition plain_direct_gateway : llm.LLM :=
  llm.mkLLM None 5 30 (Some "sk-test") OpenAI stored_prompt.

(** What [LLM.__init__] builds in [sample_world] for a model type it does
    not know. *)
Definition clientless_gateway : proxy_llm.LLM :=
  proxy_llm.mkLLM 5 2000 prompt_path "azure" "gpt-4o-mini" None None None stored_prompt.

(** A world in which a gateway of [llm] is built behind a proxy. *)
Definition proxied_world : World :=
  mkWorld {[ "./../prompts/report_prompt.txt" := stored_prompt ]} ∅
    {[ "OPENAI_PROXY_URL" := "http://127.0.0.1:7890"; "OPENAI_API_KEY" := "sk-test" ]}
    [] [] [].

(** A front page with two stories, and one whose second row lacks the
    title line. *)
Definition story_row (id text href : string) : html :=
  Tag "tr" ["athing"; "submission"] [("id", id)]
    [Tag "td" ["title"] []
       [Tag "span" ["titleline"] [] [Tag "a" [] [("href", href)] [Text text]]]].

Definition bare_row : html :=
  Tag "tr" ["athing"] [] [Tag "td" ["title"] [] [Text "flagged"]].

Definition front_page : html :=
  Tag "html" [] []
    [Tag "table" [] []
       [story_row "1" "Show HN: A prover" "https://example.org/prover";
        Tag "tr" ["spacer"] [] [];
        story_row "2" "Ask HN: Which logic?" "item?id=2"]].

Definition broken_page : html :=
  Tag "html" [] []
    [Tag "table" [] []
       [story_row "1" "Show HN: A prover" "https://example.org/prover"; bare_row]].

Definition sample_clock : Clock := mkClock "2024-12-03" "09".

Arguments retry_sleep : simpl never.

(** * Tactics for stepping through the gateway *)

(** Case analysis on the outcome of each operation on a Python value. *)
Ltac step_py :=
  repeat match goal with
    | |- context [match py_get ?a ?b ?c with _ => _ end] => destruct (py_get a b c); simpl
    | |- context [match py_getitem ?a ?b with _ => _ end] => destruct (py_getitem a b); simpl
    | |- context [match py_getitem0 ?a with _ => _ end] => destruct (py_getitem0 a); simpl
    | |- context [match first_choice_content ?a with _ => _ end] => destruct (first_choice_content a); simpl
    | |- context [if truthy ?a then _ else _] => destruct (truthy a); simpl
    end.

(** Case analysis on the matches of a hypothesis, keeping the equations. *)
Ltac split_matches H :=
  repeat match type of H with
    | context [match ?x with _ => _ end] => destruct x eqn:?; try discriminate H
    end.

(** Decide the comparisons of two string literals in the goal. *)
Ltac eval_eqb :=
  repeat match goal with
    | |- context [String.eqb ?a ?b] =>
        let v := eval vm_compute in (String.eqb a b) in
        match v with
        | true => change (String.eqb a b) with true
        | false => change (String.eqb a b) with false
        end
    end.

(** The same in a hypothesis. *)
Ltac eval_eqb_in H :=
  repeat match type of H with
    | context [String.eqb ?a ?b] =>
        let v := eval vm_compute in (String.eqb a b) in
        match v with
        | true => change (String.eqb a b) with true in H
        | false => change (String.eqb a b) with false in H
        end
    end.

(** Use a known lookup. *)
Ltac rewrite_lookup :=
  match goal with
  | E : dict_lookup _ _ = _ |- _ => rewrite E
  end.


(** Cancel what two texts have in common at their start. *)
Ltac strip_common H :=
  repeat first
    [ apply (inj (String.append _)) in H
    | match type of H with
      | String ?c ?x +:+ ?r1 = String ?c ?y +:+ ?r2 =>
          change (String c (x +:+ r1) = String c (y +:+ r2)) in H;
          apply (f_equal (fun s => match s with String _ t => t | EmptyString => EmptyString end)) in H;
          cbv beta iota in H
      end ].

(** * Facts about the transport *)

(** [retry_sleep] always returns, having waited [delay_of]. *)
Lemma retry_sleep_eq r retry_after w :
  retry_sleep r retry_after w
  = (Ret tt, with_sleeps (sleeps w ++ [delay_of r retry_after]) w).
Proof.
  unfold retry_sleep, delay_of.
  destruct retry_after as [[|s]|]; reflexivity.
Qed.

(** Replace a [retry_sleep] in the goal by the world it leaves. *)
Ltac step_sleep :=
  match goal with
  | |- context [retry_sleep ?r ?ra ?w] =>
      let H := fresh "Hsleep" in
      pose proof (retry_sleep_eq r ra w) as H;
      destruct (retry_sleep r ra w);
      inversion H; subst; clear H
  end.

(** The successor policy [urlopen_loop] continues with is the one
    [increment] returns while retries are left, and [increment] raises when
    none is. *)
Lemma increment_successor r budget :
  total r = S budget ->
  increment r = Some (mkRetry budget (backoff_factor r) (status_forcelist r)
                        (allowed_methods r) (S (history_len r))).
Proof. intros Htotal. unfold increment. rewrite Htotal. reflexivity. Qed.

Lemma increment_exhausted r : total r = 0 -> increment r = None.
Proof. intros Htotal. unfold increment. rewrite Htotal. reflexivity. Qed.

(** A status on the force list is retried whatever the count left. *)
Lemma is_retry_forced r method status has_retry_after :
  is_method_retryable r method = true ->
  existsb (Z.eqb status) (status_forcelist r) = true ->
  is_retry r method status has_retry_after = true.
Proof.
  intros Hm Hs. unfold is_retry. rewrite Hm, Hs. reflexivity.
Qed.

Section TransportFacts.

Context (backend : Backend).

Lemma same_local_refl w : same_local w w.
Proof. repeat split. Qed.

(** Whatever the backend does, one [urlopen] sends the same request between
    one and [budget + 1] times and touches nothing but the network and the
    clock. *)
Lemma urlopen_loop_net budget :
  forall r req w,
    exists a,
      1 <= a <= S budget
      /\ net (snd (urlopen_loop backend budget r req w))
         = (net w ++ repeat (HttpCall req) a)%list
      /\ same_local w (snd (urlopen_loop backend budget r req w)).
Proof.
  induction budget as [|b IH]; intros r req w; simpl.
  - destruct (http_server backend (length (net w)) req) as [st ra bd|err].
    + destruct (is_retry r (r_method req) st _);
        exists 1; simpl; repeat split; lia.
    + destruct (is_read_error err && negb (is_method_retryable r (r_method req)));
        exists 1; simpl; repeat split; lia.
  - destruct (http_server backend (length (net w)) req) as [st ra bd|err].
    + destruct (is_retry r (r_method req) st _).
      * try step_sleep.
        match goal with
        | |- context [urlopen_loop backend b ?r' req ?w2] =>
            destruct (IH r' req w2) as (a & Ha & Hnet & Hf & Hu & He & Hl)
        end.
        exists (S a). split; [lia|]. split.
        -- rewrite Hnet. simpl. rewrite <- app_assoc. reflexivity.
        -- repeat split; [rewrite Hf | rewrite Hu | rewrite He | rewrite Hl]; reflexivity.
      * exists 1; simpl; repeat split; lia.
    + destruct (is_read_error err && negb (is_method_retryable r (r_method req))).
      * exists 1; simpl; repeat split; lia.
      * try step_sleep.
        match goal with
        | |- context [urlopen_loop backend b ?r' req ?w2] =>
            destruct (IH r' req w2) as (a & Ha & Hnet & Hf & Hu & He & Hl)
        end.
        exists (S a). split; [lia|]. split.
        -- rewrite Hnet. simpl. rewrite <- app_assoc. reflexivity.
        -- repeat split; [rewrite Hf | rewrite Hu | rewrite He | rewrite Hl]; reflexivity.
Qed.

Lemma urlopen_loop_exn budget :
  forall r req w e,
    fst (urlopen_loop backend budget r req w) = Raise e -> transport_exn e = true.
Proof.
  induction budget as [|b IH]; intros r req w e; simpl;
    destruct (http_server backend (length (net w)) req) as [st ra bd|err].
  - destruct (is_retry r (r_method req) st _); simpl; intros H; inversion H; reflexivity.
  - destruct (is_read_error err && negb (is_method_retryable r (r_method req)));
      simpl; intros H; inversion H; reflexivity.
  - destruct (is_retry r (r_method req) st _).
    + try step_sleep. apply IH.
    + simpl; intros H; inversion H.
  - destruct (is_read_error err && negb (is_method_retryable r (r_method req))).
    + simpl; intros H; inversion H; reflexivity.
    + try step_sleep. apply IH.
Qed.

(** [k] replies in a row that force a retry use up [k] retries, send the
    request [k] times and leave the rest of the call to the remaining
    budget. *)
Lemma urlopen_loop_forced k :
  forall budget r req w,
    k <= budget ->
    (forall i, i < k ->
       forced_retry r (r_method req) (http_server backend (length (net w) + i) req) = true) ->
    exists r1 w1,
      urlopen_loop backend budget r req w = urlopen_loop backend (budget - k) r1 req w1
      /\ status_forcelist r1 = status_forcelist r
      /\ allowed_methods r1 = allowed_methods r
      /\ net w1 = (net w ++ repeat (HttpCall req) k)%list
      /\ same_local w w1.
Proof.
  induction k as [|k IH]; intros budget r req w Hk Hforced.
  - exists r, w. rewrite Nat.sub_0_r, app_nil_r. repeat split.
  - destruct budget as [|b]; [lia|].
    pose proof (Hforced 0 ltac:(lia)) as H0. rewrite Nat.add_0_r in H0.
    set (r' := mkRetry b (backoff_factor r) (status_forcelist r)
                 (allowed_methods r) (S (history_len r))).
    assert (Hstep : exists w2,
               urlopen_loop backend (S b) r req w = urlopen_loop backend b r' req w2
               /\ net w2 = (net w ++ [HttpCall req])%list /\ same_local w w2).
    { simpl. destruct (http_server backend (length (net w)) req) as [st ra bd|err];
        simpl in H0; apply andb_prop in H0 || idtac.
      - destruct H0 as [Hm Hs]. rewrite (is_retry_forced _ _ _ _ Hm Hs).
        try step_sleep. eexists; split; [reflexivity|]. split; [reflexivity|].
        repeat split.
      - rewrite H0. rewrite andb_false_r.
        try step_sleep. eexists; split; [reflexivity|]. split; [reflexivity|].
        repeat split. }
    destruct Hstep as (w2 & Heq & Hnet2 & Hf2 & Hu2 & He2 & Hl2).
    destruct (IH b r' req w2 ltac:(lia)) as (r1 & w1 & Heq1 & Hfl & Ham & Hnet1 & Hf1 & Hu1 & He1 & Hl1).
    { intros i Hi. rewrite Hnet2, length_app. simpl.
      replace (length (net w) + 1 + i) with (length (net w) + S i) by lia.
      specialize (Hforced (S i) ltac:(lia)).
      destruct (http_server backend (length (net w) + S i) req); exact Hforced. }
    exists r1, w1. split; [rewrite Heq; exact Heq1|].
    split; [exact Hfl|]. split; [exact Ham|]. split.
    + rewrite Hnet1, Hnet2, <- app_assoc. reflexivity.
    + repeat split; congruence.
Qed.

(** The closing attempt: a reply the policy does not retry is returned. *)
Lemma urlopen_loop_final budget r req w status retry_after body :
  http_server backend (length (net w)) req = HttpReply status retry_after body ->
  existsb (Z.eqb status) (status_forcelist r) = false ->
  existsb (Z.eqb status) RETRY_AFTER_STATUS_CODES = false ->
  urlopen_loop backend budget r req w
  = (Ret (status, body), with_net (net w ++ [HttpCall req]) w).
Proof.
  intros Hreply Hfl Hra.
  assert (His : forall h, is_retry r (r_method req) status h = false).
  { intros h. unfold is_retry. rewrite Hfl, Hra, andb_false_r.
    destruct (negb _); reflexivity. }
  destruct budget; simpl; rewrite Hreply, His; reflexivity.
Qed.

(** The closing attempt, retries used up: a forced status is
    [MaxRetryError]. *)
Lemma urlopen_loop_spent r req w status retry_after body :
  http_server backend (length (net w)) req = HttpReply status retry_after body ->
  forced_retry r (r_method req) (HttpReply status retry_after body) = true ->
  urlopen_loop backend 0 r req w
  = (Raise (MaxRetryError None), with_net (net w ++ [HttpCall req]) w).
Proof.
  intros Hreply Hforced. simpl in Hforced. apply andb_prop in Hforced as [Hm Hs].
  simpl. rewrite Hreply, (is_retry_forced _ _ _ _ Hm Hs). reflexivity.
Qed.

Lemma map_seq_succ {A : Type} (f : nat -> A) (start len : nat) :
  map f (seq (S start) len) = map (fun j => f (S j)) (seq start len).
Proof. rewrite <- seq_shift, map_map. reflexivity. Qed.

(** One more failure shifts the schedule of delays by one. *)
Lemma backoff_seq_step (factor h a : nat) :
  1 <= a ->
  ([backoff_time factor (S h)]
   ++ map (fun j => backoff_time factor (S h + j)) (seq 1 (a - 1)))%list
  = map (fun j => backoff_time factor (h + j)) (seq 1 (S a - 1)).
Proof.
  intros Ha. destruct a as [|a]; [lia|].
  replace (S (S a) - 1) with (S a) by lia.
  replace (S a - 1) with a by lia.
  cbn [seq map app]. rewrite Nat.add_1_r. f_equal.
  rewrite (map_seq_succ _ 1 a). apply map_ext. intros j. f_equal. lia.
Qed.

(** Against a backend that never sends [Retry-After], the delay waited
    after the [j]-th failure of a request is [backoff_time] at [j]: one
    [urlopen] with [a] attempts waits after each attempt but the last. *)
Lemma urlopen_loop_sleeps budget :
  forall r req w,
    (forall i q, no_retry_after (http_server backend i q) = true) ->
    exists a,
      1 <= a <= S budget
      /\ net (snd (urlopen_loop backend budget r req w))
         = (net w ++ repeat (HttpCall req) a)%list
      /\ sleeps (snd (urlopen_loop backend budget r req w))
         = (sleeps w
            ++ map (fun j => backoff_time (backoff_factor r) (history_len r + j))
                 (seq 1 (a - 1)))%list.
Proof.
  induction budget as [|b IH]; intros r req w Hnra; simpl;
    pose proof (Hnra (length (net w)) req) as Hra;
    destruct (http_server backend (length (net w)) req) as [st ra bd|err].
  - destruct (is_retry r (r_method req) st _);
      exists 1; simpl; rewrite app_nil_r; repeat split; lia.
  - destruct (is_read_error err && negb (is_method_retryable r (r_method req)));
      exists 1; simpl; rewrite app_nil_r; repeat split; lia.
  - destruct ra as [s|]; [discriminate Hra|].
    destruct (is_retry r (r_method req) st false).
    + try step_sleep.
      match goal with
      | |- context [urlopen_loop backend b ?r' req ?w2] =>
          destruct (IH r' req w2 Hnra) as (a & Ha & Hnet & Hsl)
      end.
      exists (S a). split; [lia|]. split.
      * rewrite Hnet. simpl. rewrite <- app_assoc. reflexivity.
      * rewrite Hsl. cbn [sleeps with_sleeps with_net backoff_factor history_len].
        rewrite <- app_assoc. f_equal. apply backoff_seq_step. lia.
    + exists 1; simpl; rewrite app_nil_r; repeat split; lia.
  - destruct (is_read_error err && negb (is_method_retryable r (r_method req))).
    + exists 1; simpl; rewrite app_nil_r; repeat split; lia.
    + try step_sleep.
      match goal with
      | |- context [urlopen_loop backend b ?r' req ?w2] =>
          destruct (IH r' req w2 Hnra) as (a & Ha & Hnet & Hsl)
      end.
      exists (S a). split; [lia|]. split.
      * rewrite Hnet. simpl. rewrite <- app_assoc. reflexivity.
      * rewrite Hsl. cbn [sleeps with_sleeps with_net backoff_factor history_len].
        rewrite <- app_assoc. f_equal. apply backoff_seq_step. lia.
Qed.

(** *** [CustomHTTPClient.request] *)

(** A response that is no error and whose body parses is returned. *)
Lemma request_returns c method url json_data w status body w1 :
  run_urlopen backend c method url json_data w = (Ret (status, Some body), w1) ->
  ((400 <=? status)%Z && (status <? 600)%Z) = false ->
  request backend c method url json_data w = (Ret body, w1).
Proof.
  unfold run_urlopen, request_of. intros Hrun Hst.
  unfold request, try_except, bind, session_request, urlopen, raise_for_status.
  cbv beta zeta. unfold try_except. rewrite Hrun. simpl. rewrite Hst. reflexivity.
Qed.

(** Retries used up: the error is logged and the empty dict returned. *)
Lemma request_spent c method url json_data w reason w1 :
  run_urlopen backend c method url json_data w = (Raise (MaxRetryError reason), w1) ->
  request backend c method url json_data w
  = (Ret (JObj []),
     with_log (log w1 ++ [mkLog ERROR "Request failed: "
                            (ExnArg (adapter_exception (MaxRetryError reason)))]) w1).
Proof.
  unfold run_urlopen, request_of. intros Hrun.
  unfold request, try_except, bind, session_request, urlopen.
  cbv beta zeta. unfold try_except. rewrite Hrun. simpl.
  destruct reason as [[]|]; reflexivity.
Qed.

(** [request] never raises, and beyond what [urlopen] does it only logs. *)
Lemma request_frame c method url json_data w :
  exists v,
    fst (request backend c method url json_data w) = Ret v
    /\ net (snd (request backend c method url json_data w))
       = net (snd (run_urlopen backend c method url json_data w))
    /\ sleeps (snd (request backend c method url json_data w))
       = sleeps (snd (run_urlopen backend c method url json_data w))
    /\ files (snd (request backend c method url json_data w))
       = files (snd (run_urlopen backend c method url json_data w)).
Proof.
  unfold run_urlopen, request_of.
  unfold request, try_except, bind, session_request, urlopen, raise_for_status, response_json.
  cbv beta zeta. unfold try_except.
  pose proof (urlopen_loop_exn (total (retry_strategy c)) (retry_strategy c)
                (mkRequest method url (session_headers c) (session_proxies c)
                   json_data (client_timeout c)) w) as Hexn.
  destruct (urlopen_loop backend _ _ _ w) as [[[st bd]|e] w1]; simpl in *.
  - destruct ((400 <=? st)%Z && (st <? 600)%Z); simpl.
    + eexists; repeat split.
    + destruct bd; simpl; eexists; repeat split.
  - specialize (Hexn e eq_refl).
    destruct e; try discriminate Hexn.
    + destruct reason as [[]|]; simpl; eexists; repeat split.
    + destruct err; simpl; eexists; repeat split.
Qed.

End TransportFacts.

(** * Facts about [proxy_llm] *)

Section ProxyFacts.

Context (backend : Backend).
Import proxy_llm.

(** With an HTTP client and a model type other than [openai],
    [_get_response] returns a value, and what it does to the network, the
    clock and the files is what [urlopen] does on the request it builds. *)
Lemma get_response_http_frame c mt mn msgs w :
  String.eqb mt "openai" = false ->
  exists v,
    fst (_get_response backend (HTTP c) mt mn msgs w) = Ret v
    /\ net (snd (_get_response backend (HTTP c) mt mn msgs w))
       = net (snd (run_urlopen backend c "POST" (url_for mt) (data_for mt mn msgs) w))
    /\ sleeps (snd (_get_response backend (HTTP c) mt mn msgs w))
       = sleeps (snd (run_urlopen backend c "POST" (url_for mt) (data_for mt mn msgs) w))
    /\ files (snd (_get_response backend (HTTP c) mt mn msgs w))
       = files (snd (run_urlopen backend c "POST" (url_for mt) (data_for mt mn msgs) w)).
Proof.
  intros Hmt. unfold _get_response, try_except, bind, client_request, url_for, data_for.
  rewrite Hmt. cbv beta zeta.
  destruct (mt =? "ollama") eqn:Ho; destruct (mt =? "yesapi") eqn:Hy;
  match goal with |- context [request backend c ?m ?u ?d w] =>
    destruct (request_frame backend c m u d w) as (v & Hv & Hn & Hs & Hf);
    destruct (request backend c m u d w) as [[v'|e] w1] eqn:Hreq end;
  simpl in Hv; try discriminate Hv; cbn [fst snd] in *;
  unfold lift_res, LOG, modify, ret, raise, py_getattr_text; simpl;
  step_py; eauto.
Qed.

(** The live branch of generation, once [_get_response] has returned: a
    true value is returned as it is, any other becomes the empty string;
    the gateway is left as it was. *)
Lemma generate_live g cl md p w v w1 :
  client g = Some cl ->
  _get_response backend cl (model_type g) (model_name g)
    (conversation (prompt_or p (default_prompt g)) md)
    (with_log (log w ++ [start_entry g]) w) = (Ret v, w1) ->
  generate_github_daily_report backend md p false (mkSys g w)
  = (Ret (if truthy v then v else JStr ""),
     mkSys g (with_log (log w1 ++ [verdict_entry v]) w1)).
Proof.
  intros Hcl Hget.
  unfold generate_github_daily_report, bind, gets, in_world, getattr_client,
    LOG, modify, ret, verdict_entry.
  cbn [self world]. rewrite Hcl. cbv beta iota zeta. cbn [self world].
  unfold conversation, start_entry in Hget. rewrite Hget.
  destruct (truthy v); reflexivity.
Qed.

(** [_get_response] never raises. *)
Lemma get_response_total cl mt mn msgs w :
  exists v, fst (_get_response backend cl mt mn msgs w) = Ret v.
Proof.
  unfold _get_response, try_except, bind, client_request, client_chat_completions_create,
    chat_completions_create.
  cbv beta zeta.
  destruct (mt =? "openai"); destruct cl as [|c].
  - destruct (sdk_server backend _ _); unfold lift_res, LOG, modify, ret, raise; simpl;
      step_py; eauto.
  - unfold lift_res, LOG, modify, ret, raise; simpl; eauto.
  - unfold lift_res, LOG, modify, ret, raise; simpl; eauto.
  - destruct (mt =? "ollama"); destruct (mt =? "yesapi");
    match goal with |- context [request backend c ?m ?u ?d w] =>
      destruct (request_frame backend c m u d w) as (v & Hv & _);
      destruct (request backend c m u d w) as [[v'|e] w1] eqn:Hreq end;
    simpl in Hv; try discriminate Hv; cbn [fst snd] in *;
    unfold lift_res, LOG, modify, ret, raise, py_getattr_text; simpl;
    step_py; eauto.
Qed.

(** A 200 of the forwarding proxy that holds [c] in
    [choices[0].message.content]. *)
Lemma get_response_forwarded cl mn msgs w body w1 c :
  run_urlopen backend cl "POST" API_URL (data_for "yesapi" mn msgs) w
  = (Ret (200%Z, Some body), w1) ->
  forwarded_content body = Some (JStr c) ->
  _get_response backend (HTTP cl) "yesapi" mn msgs w = (Ret (JStr c), w1).
Proof.
  intros Hrun Hc.
  pose proof (request_returns backend cl _ _ _ w 200%Z body w1 Hrun eq_refl) as Hreq.
  unfold data_for in Hreq. eval_eqb_in Hreq. cbv iota in Hreq.
  unfold _get_response, try_except, bind, client_request. eval_eqb.
  cbv beta iota zeta. rewrite Hreq.
  unfold forwarded_content in Hc. split_matches Hc. subst.
  unfold lift_res, py_get, py_getitem, py_getitem0.
  repeat (progress (try rewrite_lookup; cbn [truthy])). reflexivity.
Qed.


(** A response of the local server without [message.content] ends in the
    handler of [_get_response]. *)
Lemma get_response_local_shape cl mn msgs w fields w1 :
  run_urlopen backend cl "POST" OLLAMA_API_URL (data_for "ollama" mn msgs) w
  = (Ret (200%Z, Some (JObj fields)), w1) ->
  local_content (JObj fields) = None ->
  exists e,
    _get_response backend (HTTP cl) "ollama" mn msgs w
    = (Ret (JStr ""),
       with_log (log w1 ++ [mkLog ERROR "An error occurred while getting the response: "
                              (ExnArg e)]) w1).
Proof.
  intros Hrun Hc.
  pose proof (request_returns backend cl _ _ _ w 200%Z _ w1 Hrun eq_refl) as Hreq.
  unfold data_for in Hreq. eval_eqb_in Hreq. cbv iota in Hreq.
  unfold _get_response, try_except, bind, client_request. eval_eqb.
  cbv beta iota zeta. rewrite Hreq.
  unfold local_content in Hc. split_matches Hc.
  all: unfold lift_res, py_get, py_getitem, py_getitem0, py_getattr_text, LOG, modify, ret, raise.
  all: repeat (progress (try rewrite_lookup; cbn [truthy type_name any_Exception])).
  all: eexists; reflexivity.
Qed.

(** Retries used up: both HTTP variants end with the empty string. *)
Lemma get_response_spent cl mt mn msgs w reason w1 :
  mt = "yesapi" \/ mt = "ollama" ->
  run_urlopen backend cl "POST" (url_for mt) (data_for mt mn msgs) w
  = (Raise (MaxRetryError reason), w1) ->
  fst (_get_response backend (HTTP cl) mt mn msgs w) = Ret (JStr "")
  /\ net (snd (_get_response backend (HTTP cl) mt mn msgs w)) = net w1.
Proof.
  intros Hmt Hrun.
  pose proof (request_spent backend cl _ _ _ w reason w1 Hrun) as Hreq.
  unfold data_for, url_for in Hreq.
  unfold _get_response, try_except, bind, client_request.
  destruct Hmt; subst mt; eval_eqb_in Hreq; cbv iota in Hreq; eval_eqb;
    cbv beta iota zeta; rewrite Hreq; split; reflexivity.
Qed.


(** *** Scripted backends against a client built by the gateway *)

(** Under the policy of the gateways a status of the force list forces a
    retry of a request whose method is allowed. *)
Lemma forced_by_policy n c method target data failing reply :
  retry_strategy c = gateway_policy n ->
  existsb (String.eqb method) RETRY_METHODS = true ->
  existsb (Z.eqb failing) RETRY_STATUSES = true ->
  reply_status reply = Some failing ->
  forced_retry (retry_strategy c) (r_method (request_of c method target data)) reply = true.
Proof.
  intros Hpol Hm Hfail Hst.
  destruct reply as [st ra bd|err]; [|discriminate Hst].
  simpl in Hst. inversion Hst; subst st.
  unfold forced_retry, is_method_retryable. rewrite Hpol.
  cbn [gateway_policy allowed_methods status_forcelist r_method request_of].
  unfold RETRY_METHODS in *. rewrite Hm, Hfail. reflexivity.
Qed.

(** [k] attempts answered with a status of the force list, the next one
    with 200. *)
Lemma run_urlopen_recovers c n method target data w k failing retry_after body :
  retry_strategy c = gateway_policy n ->
  k <= n ->
  existsb (String.eqb method) RETRY_METHODS = true ->
  existsb (Z.eqb failing) RETRY_STATUSES = true ->
  (forall i, i < k ->
     reply_status (http_server backend (length (net w) + i)
                     (request_of c method target data))
     = Some failing) ->
  http_server backend (length (net w) + k) (request_of c method target data)
  = HttpReply 200 retry_after body ->
  exists w1,
    run_urlopen backend c method target data w = (Ret (200%Z, body), w1)
    /\ net w1 = (net w ++ repeat (HttpCall (request_of c method target data)) (S k))%list
    /\ same_local w w1.
Proof.
  intros Hpol Hk Hm Hfail Hfirst Hlast.
  unfold run_urlopen.
  set (req := request_of c method target data) in *.
  destruct (urlopen_loop_forced backend k (total (retry_strategy c)) (retry_strategy c) req w)
    as (r1 & w1 & Heq & Hfl & Ham & Hnet & Hloc).
  { rewrite Hpol. exact Hk. }
  { intros i Hi. eapply forced_by_policy; eauto. }
  rewrite Heq.
  rewrite (urlopen_loop_final backend _ r1 req w1 200%Z retry_after body).
  - eexists; split; [reflexivity|]. split.
    + cbn [net with_net]. rewrite Hnet, <- app_assoc.
      replace (S k) with (k + 1) by lia. rewrite repeat_app. reflexivity.
    + destruct Hloc as (?&?&?&?). repeat split; assumption.
  - rewrite Hnet, length_app, repeat_length. exact Hlast.
  - rewrite Hfl, Hpol. reflexivity.
  - reflexivity.
Qed.

(** All [n + 1] attempts answered with a status of the force list. *)
Lemma run_urlopen_exhausts c n method target data w failing :
  retry_strategy c = gateway_policy n ->
  existsb (String.eqb method) RETRY_METHODS = true ->
  existsb (Z.eqb failing) RETRY_STATUSES = true ->
  (forall i, i <= n ->
     reply_status (http_server backend (length (net w) + i)
                     (request_of c method target data))
     = Some failing) ->
  exists w1,
    run_urlopen backend c method target data w = (Raise (MaxRetryError None), w1)
    /\ net w1 = (net w ++ repeat (HttpCall (request_of c method target data)) (S n))%list
    /\ same_local w w1.
Proof.
  intros Hpol Hm Hfail Hall.
  unfold run_urlopen.
  set (req := request_of c method target data) in *.
  assert (Hforced : forall i, i <= n ->
            forced_retry (retry_strategy c) (r_method req)
              (http_server backend (length (net w) + i) req) = true).
  { intros i Hi. eapply forced_by_policy; eauto. }
  destruct (urlopen_loop_forced backend n (total (retry_strategy c)) (retry_strategy c) req w)
    as (r1 & w1 & Heq & Hfl & Ham & Hnet & Hloc).
  { rewrite Hpol. reflexivity. }
  { intros i Hi. apply Hforced. lia. }
  rewrite Heq. replace (total (retry_strategy c) - n) with 0 by (rewrite Hpol; cbn; lia).
  pose proof (Hforced n ltac:(lia)) as Hn.
  rewrite <- (repeat_length (HttpCall req) n), <- length_app, <- Hnet in Hn.
  destruct (http_server backend (length (net w1)) req) as [st ra bd|err] eqn:Hreply.
  - rewrite (urlopen_loop_spent backend r1 req w1 st ra bd Hreply).
    + eexists; split; [reflexivity|]. split.
      * cbn [net with_net]. rewrite Hnet, <- app_assoc.
        replace (S n) with (n + 1) by lia. rewrite repeat_app. reflexivity.
      * destruct Hloc as (?&?&?&?). repeat split; assumption.
    + unfold forced_retry, is_method_retryable in *. rewrite Hfl, Ham. exact Hn.
  - specialize (Hall n ltac:(lia)).
    rewrite <- (repeat_length (HttpCall req) n), <- length_app, <- Hnet, Hreply in Hall.
    discriminate Hall.
Qed.

End ProxyFacts.

(** * The prompt and the dry run *)

Section PromptAndDryRun.

Context (backend : Backend).

(** [if not prompt: prompt = self.default_prompt] computes the effective
    prompt. *)
Lemma prompt_or_effective override stored :
  prompt_or override stored = effective_prompt override stored.
Proof. destruct override as [p|]; [|reflexivity]. unfold prompt_or; simpl. destruct (p =? ""); reflexivity. Qed.

(** The outcome of a dry run of [proxy_llm]: nothing but the log and the
    prompt file changes. *)
Lemma proxy_dry_run g md prompt w :
  proxy_llm.generate_github_daily_report backend md prompt true (mkSys g w)
  = if bool_decide (proxy_llm.prompt_file_path g ∈ unwritable w)
    then (Raise (OSError (proxy_llm.prompt_file_path g)),
          mkSys g (with_log (log w ++ [mkLog INFO "Dry run mode enabled. Saving prompt to file." NoArg]) w))
    else (Ret (JStr "DRY RUN"),
          mkSys g
            (with_log
               (log w ++ [mkLog INFO "Dry run mode enabled. Saving prompt to file." NoArg;
                          mkLog DEBUG ("Prompt saved to " +:+ proxy_llm.prompt_file_path g) NoArg])
               (with_files
                  (<[proxy_llm.prompt_file_path g :=
                       json_dumps_indent4
                         (conversation (prompt_or prompt (proxy_llm.default_prompt g)) md)]>
                     (files w)) w))).
Proof.
  unfold proxy_llm.generate_github_daily_report, bind, gets, in_world, LOG, modify,
    write_file, ret.
  cbn [self world unwritable with_log].
  destruct (bool_decide _); cbn [self world]; [reflexivity|].
  unfold with_log, with_files. cbn. rewrite <- app_assoc. reflexivity.
Qed.



(** C9. The two entry points of [proxy_llm] are the same function: on every
    digest, prompt, mode, gateway and world they return the same result
    and leave the same gateway and world behind. *)
Theorem github_and_hn_entry_points_agree :
  forall (digest : string) (prompt : option string) (dry_run : bool)
         (s : Sys proxy_llm.LLM),
    proxy_llm.generate_github_daily_report backend digest prompt dry_run s
    = proxy_llm.generate_hn_daily_report backend digest prompt dry_run s.
Proof. intros. reflexivity. Qed.

Lemma Forall_repeat {A : Type} (P : A -> Prop) (x : A) (n : nat) :
  P x -> Forall P (repeat x n).
Proof. intros Hx. induction n; simpl; constructor; assumption. Qed.

(** Every call [_get_response] makes carries the body built from the
    conversation it was given. *)
Lemma get_response_calls cl mt mn msgs w :
  exists calls,
    net (snd (proxy_llm._get_response backend cl mt mn msgs w)) = (net w ++ calls)%list
    /\ Forall (fun call => call_body call = data_for mt mn msgs) calls
    /\ (if reaches_backend cl mt then 1 <= length calls else calls = []).
Proof.
  destruct cl as [|c]; cbn [reaches_backend].
  - unfold proxy_llm._get_response, try_except, bind, client_request,
      client_chat_completions_create, chat_completions_create, data_for.
    cbv beta zeta.
    destruct (mt =? "openai") eqn:Hmt.
    + eexists [_].
      destruct (sdk_server backend _ _);
        unfold lift_res, LOG, modify, ret, raise; simpl; step_py;
        (split; [reflexivity|]; split; [repeat constructor | cbn; lia]).
    + exists []. rewrite app_nil_r. unfold LOG, modify, ret, raise. simpl.
      repeat split; constructor.
  - destruct (mt =? "openai") eqn:Hmt; cbn [negb].
    + exists []. rewrite app_nil_r.
      unfold proxy_llm._get_response, try_except, bind, client_chat_completions_create.
      rewrite Hmt. unfold LOG, modify, ret, raise. simpl. repeat split; constructor.
    + destruct (get_response_http_frame backend c mt mn msgs w Hmt) as (v & _ & Hnet & _).
      rewrite Hnet. unfold run_urlopen.
      destruct (urlopen_loop_net backend (total (retry_strategy c)) (retry_strategy c)
                  (request_of c "POST" (url_for mt) (data_for mt mn msgs)) w)
        as (a & Ha & Hnet' & _).
      exists (repeat (HttpCall (request_of c "POST" (url_for mt) (data_for mt mn msgs))) a).
      split; [exact Hnet'|]. split.
      * apply Forall_repeat. reflexivity.
      * rewrite repeat_length. lia.
Qed.

(** The same for a whole generation; the gateway is left as it was. *)
Lemma generate_calls g md p w :
  exists calls,
    net (world (snd (proxy_llm.generate_github_daily_report backend md p false (mkSys g w))))
    = (net w ++ calls)%list
    /\ Forall (fun call =>
                 call_body call
                 = data_for (proxy_llm.model_type g) (proxy_llm.model_name g)
                     (conversation (prompt_or p (proxy_llm.default_prompt g)) md)) calls
    /\ match proxy_llm.client g with
       | Some cl => if reaches_backend cl (proxy_llm.model_type g)
                    then 1 <= length calls else calls = []
       | None => calls = []
       end
    /\ self (snd (proxy_llm.generate_github_daily_report backend md p false (mkSys g w))) = g.
Proof.
  destruct (proxy_llm.client g) as [cl|] eqn:Hcl.
  - set (w0 := with_log (log w ++ [start_entry g]) w).
    destruct (get_response_total backend cl (proxy_llm.model_type g) (proxy_llm.model_name g)
                (conversation (prompt_or p (proxy_llm.default_prompt g)) md) w0) as (v & Hv).
    destruct (get_response_calls cl (proxy_llm.model_type g) (proxy_llm.model_name g)
                (conversation (prompt_or p (proxy_llm.default_prompt g)) md) w0)
      as (calls & Hnet & Hall & Hlen).
    destruct (proxy_llm._get_response backend cl _ _ _ w0) as [r w1] eqn:Hget.
    cbn [fst snd] in *. subst r.
    rewrite (generate_live backend g cl md p w v w1 Hcl Hget).
    exists calls. cbn [snd world self net with_log]. repeat split; assumption.
  - exists []. rewrite app_nil_r.
    unfold proxy_llm.generate_github_daily_report, bind, gets, in_world,
      proxy_llm.getattr_client, LOG, modify, ret.
    cbn [self world]. rewrite Hcl. cbn. repeat split; constructor.
Qed.

(** *** The same for [llm] *)

(** With an HTTP client [llm._get_response] returns a value and sends what
    [urlopen] sends. *)
Lemma llm_get_response_frame c msgs w :
  exists v,
    fst (llm._get_response backend (HTTP c) msgs w) = Ret v
    /\ net (snd (llm._get_response backend (HTTP c) msgs w))
       = net (snd (run_urlopen backend c "POST" llm.API_URL (llm_data msgs) w)).
Proof.
  unfold llm._get_response, try_except, bind, llm_data. cbv beta zeta.
  match goal with |- context [request backend c ?m ?u ?d w] =>
    destruct (request_frame backend c m u d w) as (v & Hv & Hn & Hs & Hf);
    destruct (request backend c m u d w) as [[v'|e] w1] eqn:Hreq end;
  simpl in Hv; try discriminate Hv; cbn [fst snd] in *;
  unfold lift_res, LOG, modify, ret, raise; simpl;
  step_py; eauto.
Qed.

(** Every call [llm._get_response] makes carries the body built from the
    conversation, and it makes at least one. *)
Lemma llm_get_response_calls cl msgs w :
  exists v calls,
    fst (llm._get_response backend cl msgs w) = Ret v
    /\ net (snd (llm._get_response backend cl msgs w)) = (net w ++ calls)%list
    /\ Forall (fun call => call_body call = llm_data msgs) calls
    /\ 1 <= length calls.
Proof.
  destruct cl as [|c].
  - unfold llm._get_response, try_except, bind, chat_completions_create, llm_data.
    cbv beta zeta.
    destruct (sdk_server backend _ _);
      unfold lift_res, LOG, modify, ret, raise; simpl; step_py;
      eexists _, [_];
      (split; [reflexivity|]; split; [reflexivity|]; split; [repeat constructor | cbn; lia]).
  - destruct (llm_get_response_frame c msgs w) as (v & Hv & Hnet).
    rewrite Hnet. unfold run_urlopen.
    destruct (urlopen_loop_net backend (total (retry_strategy c)) (retry_strategy c)
                (request_of c "POST" llm.API_URL (llm_data msgs)) w)
      as (a & Ha & Hnet' & _).
    exists v, (repeat (HttpCall (request_of c "POST" llm.API_URL (llm_data msgs))) a).
    split; [exact Hv|]. split; [exact Hnet'|]. split.
    + apply Forall_repeat. reflexivity.
    + rewrite repeat_length. lia.
Qed.

(** The live branch of [llm.generate_daily_report]. *)
Lemma llm_generate_live g md p w v w1 :
  llm._get_response backend (llm.client g)
    (conversation (prompt_or p (llm.default_prompt g)) md)
    (with_log (log w ++ [mkLog INFO "Starting report generation using GPT model." NoArg]) w)
  = (Ret v, w1) ->
  llm.generate_daily_report backend md p false (mkSys g w)
  = (Ret (if truthy v then v else JStr ""),
     mkSys g (with_log (log w1 ++ [verdict_entry v]) w1)).
Proof.
  intros Hget.
  unfold llm.generate_daily_report, bind, gets, in_world, LOG, modify, ret, verdict_entry.
  cbn [self world]. cbv beta iota zeta. cbn [self world].
  unfold conversation in Hget. rewrite Hget.
  destruct (truthy v); reflexivity.
Qed.

Lemma llm_generate_calls g md p w :
  exists calls,
    net (world (snd (llm.generate_daily_report backend md p false (mkSys g w))))
    = (net w ++ calls)%list
    /\ Forall (fun call =>
                 call_body call
                 = llm_data (conversation (prompt_or p (llm.default_prompt g)) md)) calls
    /\ 1 <= length calls.
Proof.
  set (w0 := with_log (log w ++ [mkLog INFO "Starting report generation using GPT model." NoArg]) w).
  destruct (llm_get_response_calls (llm.client g)
              (conversation (prompt_or p (llm.default_prompt g)) md) w0)
    as (v & calls & Hv & Hnet & Hall & Hlen).
  destruct (llm._get_response backend (llm.client g) _ w0) as [r w1] eqn:Hget.
  cbn [fst snd] in *. subst r.
  rewrite (llm_generate_live g md p w v w1 Hget).
  exists calls. cbn [snd world self net with_log]. repeat split; assumption.
Qed.

(** C4 (amended). The system message of the conversation is the caller's
    override when one is given and is not empty, and the stored default
    otherwise: every call that a generation sends to a backend carries
    exactly that system message followed by the digest as the user message,
    and a gateway whose client fits its model type sends at least one. *)
Theorem system_message_is_effective_prompt :
  forall (g : proxy_llm.LLM) (g' : llm.LLM) (digest : string)
         (override : option string) (w : World),
    let out := proxy_llm.generate_github_daily_report backend digest override false (mkSys g w) in
    let out' := llm.generate_daily_report backend digest override false (mkSys g' w) in
    exists calls calls',
      net (world (snd out)) = (net w ++ calls)%list
      /\ Forall (fun call =>
                   call_messages call
                   = Some (conversation
                             (effective_prompt override (proxy_llm.default_prompt g)) digest))
           calls
      /\ match proxy_llm.client g with
         | Some cl => if reaches_backend cl (proxy_llm.model_type g)
                      then 1 <= length calls else calls = []
         | None => calls = []
         end
      /\ net (world (snd out')) = (net w ++ calls')%list
      /\ Forall (fun call =>
                   call_messages call
                   = Some (conversation
                             (effective_prompt override (llm.default_prompt g')) digest))
           calls'
      /\ 1 <= length calls'.
Proof.
  intros g g' digest override w out out'. subst out out'.
  destruct (generate_calls g digest override w) as (calls & Hnet & Hall & Hlen & _).
  destruct (llm_generate_calls g' digest override w) as (calls' & Hnet' & Hall' & Hlen').
  exists calls, calls'. rewrite <- !prompt_or_effective.
  split; [exact Hnet|]. split.
  { eapply Forall_impl; [exact Hall|]. intros call Hb. unfold call_messages.
    rewrite Hb. unfold data_for. destruct (_ =? "ollama"); reflexivity. }
  split; [exact Hlen|]. split; [exact Hnet'|]. split; [|exact Hlen'].
  eapply Forall_impl; [exact Hall'|]. intros call Hb. unfold call_messages.
  rewrite Hb. reflexivity.
Qed.

(** What a successful construction establishes. *)
Lemma LLM_init_inv mr mt mn pf t w0 g w1 :
  proxy_llm.LLM_init mr mt mn pf t w0 = (Ret g, w1) ->
  w1 = w0
  /\ proxy_llm.prompt_file_path g = default "prompts/github_openai_report_prompt.txt" pf
  /\ files w0 !! proxy_llm.prompt_file_path g = Some (proxy_llm.default_prompt g)
  /\ proxy_llm.max_retries g = default 5 mr
  /\ proxy_llm.model_type g = default "openai" mt
  /\ proxy_llm.model_name g = default "gpt-4o-mini" mn
  /\ proxy_llm.client g
     = (if String.eqb (default "openai" mt) "openai" then Some OpenAI
        else if String.eqb (default "openai" mt) "yesapi" then
          Some (HTTP (proxy_llm.CustomHTTPClient_init (environ w0 !! "OPENAI_API_KEY")
                        (Some proxy_llm.API_URL) (default 5 mr) (default 2000%Z t)))
        else if String.eqb (default "openai" mt) "ollama" then
          Some (HTTP (proxy_llm.CustomHTTPClient_init None
                        (Some proxy_llm.OLLAMA_API_URL) (default 5 mr) (default 2000%Z t)))
        else None).
Proof.
  cbv beta iota zeta delta
    [proxy_llm.LLM_init bind ret raise os_getenv gets OpenAI_init read_file fst snd].
  destruct (default "openai" mt =? "openai");
    [destruct (environ w0 !! "OPENAI_API_KEY") |
     destruct (default "openai" mt =? "yesapi");
       [|destruct (default "openai" mt =? "ollama")]];
    try (intros H; discriminate H);
    destruct (files w0 !! default "prompts/github_openai_report_prompt.txt" pf) eqn:Hfile;
    intros H; inversion H; subst; cbn; repeat split; assumption.
Qed.


End PromptAndDryRun.

(** * Calls that reach a backend *)

Section BackendCalls.

Context (backend : Backend).

(** Returning a string when it is true and the empty string otherwise is
    returning the string. *)
Lemma truthy_or_empty (c : string) :
  (if truthy (JStr c) then JStr c else JStr "") = JStr c.
Proof. destruct c; reflexivity. Qed.






(** C5. A forwarding gateway whose backend answers 503 to the first [k]
    attempts, [k] below [max_retries], and 200 with content [c] to the next
    one returns [c]; exactly [k + 1] requests are sent, all of them the same
    request, whose body is the one built from the conversation. *)
Theorem retries_then_success :
  forall (g : proxy_llm.LLM) (cl : CustomHTTPClient) (digest : string)
         (prompt : option string) (w : World) (k : nat)
         (retry_after : option nat) (body : json) (c : string),
    proxy_llm.model_type g = "yesapi" ->
    proxy_llm.client g = Some (HTTP cl) ->
    retry_strategy cl = gateway_policy (proxy_llm.max_retries g) ->
    k < proxy_llm.max_retries g ->
    (forall i req, i < k ->
       reply_status (http_server backend (length (net w) + i) req) = Some 503%Z) ->
    (forall req, http_server backend (length (net w) + k) req
                 = HttpReply 200 retry_after (Some body)) ->
    forwarded_content body = Some (JStr c) ->
    let out := proxy_llm.generate_github_daily_report backend digest prompt false (mkSys g w) in
    fst out = Ret (JStr c)
    /\ exists req,
         net (world (snd out)) = (net w ++ repeat (HttpCall req) (S k))%list
         /\ r_json req
            = JObj [("model", JStr (proxy_llm.model_name g));
                    ("messages",
                     conversation (effective_prompt prompt (proxy_llm.default_prompt g)) digest);
                    ("temperature", JNum 1); ("max_tokens", JNum 100); ("top_p", JNum 1)].
Proof.
  intros g cl digest prompt w k ra body c Hmt Hcl Hpol Hk Hfirst Hlast Hc out. subst out.
  rewrite <- prompt_or_effective.
  set (msgs := conversation (prompt_or prompt (proxy_llm.default_prompt g)) digest).
  set (w0 := with_log (log w ++ [start_entry g]) w).
  destruct (run_urlopen_recovers backend cl (proxy_llm.max_retries g) "POST" proxy_llm.API_URL
              (data_for "yesapi" (proxy_llm.model_name g) msgs) w0 k 503%Z ra (Some body))
    as (w1 & Hrun & Hnet & _); try reflexivity; try lia.
  { exact Hpol. }
  { intros i Hi. cbn [w0 net with_log]. apply Hfirst. exact Hi. }
  { cbn [w0 net with_log]. apply Hlast. }
  pose proof (get_response_forwarded backend cl _ msgs w0 body w1 c Hrun Hc) as Hget.
  rewrite <- Hmt in Hget.
  rewrite (generate_live backend g (HTTP cl) digest prompt w _ w1 Hcl Hget).
  cbn [fst snd world net with_log]. split.
  - apply f_equal, truthy_or_empty.
  - eexists. split; [exact Hnet|]. reflexivity.
Qed.

(** The value [generate] returns once [_get_response] has returned. *)
Lemma generate_after g cl digest prompt w v :
  proxy_llm.client g = Some cl ->
  fst (proxy_llm._get_response backend cl (proxy_llm.model_type g) (proxy_llm.model_name g)
         (conversation (prompt_or prompt (proxy_llm.default_prompt g)) digest)
         (with_log (log w ++ [start_entry g]) w)) = Ret v ->
  let inner :=
    snd (proxy_llm._get_response backend cl (proxy_llm.model_type g) (proxy_llm.model_name g)
           (conversation (prompt_or prompt (proxy_llm.default_prompt g)) digest)
           (with_log (log w ++ [start_entry g]) w)) in
  let out := proxy_llm.generate_github_daily_report backend digest prompt false (mkSys g w) in
  fst out = Ret (if truthy v then v else JStr "")
  /\ net (world (snd out)) = net inner
  /\ sleeps (world (snd out)) = sleeps inner
  /\ log (world (snd out)) = (log inner ++ [verdict_entry v])%list.
Proof.
  intros Hcl Hv inner out. subst inner out.
  destruct (proxy_llm._get_response backend cl _ _ _ _) as [r w1] eqn:Hget.
  cbn [fst snd] in *. subst r.
  rewrite (generate_live backend g cl digest prompt w v w1 Hcl Hget).
  repeat split.
Qed.

(** C2 (amended). For a gateway built for the forwarding proxy or for the
    local server, with [max_retries] as given or 5 when left out: when all
    [max_retries + 1] attempts are answered 500, generation raises nothing
    and returns the empty string, and exactly [max_retries + 1] requests,
    all the same, are sent. *)
Theorem exhausted_retries_return_empty_string :
  forall (mr : option nat) (mt : string) (mn pf : option string) (t : option Z)
         (w0 w0' : World) (g : proxy_llm.LLM)
         (digest : string) (prompt : option string) (w : World),
    proxy_llm.LLM_init mr (Some mt) mn pf t w0 = (Ret g, w0') ->
    mt = "yesapi" \/ mt = "ollama" ->
    (forall i req, i <= default 5 mr ->
       reply_status (http_server backend (length (net w) + i) req) = Some 500%Z) ->
    let out := proxy_llm.generate_github_daily_report backend digest prompt false (mkSys g w) in
    fst out = Ret (JStr "")
    /\ proxy_llm.max_retries g = default 5 mr
    /\ exists req,
         net (world (snd out)) = (net w ++ repeat (HttpCall req) (S (default 5 mr)))%list.
Proof.
  intros mr mt mn pf t w0 w0' g digest prompt w Hinit Hmt Hall out.
  destruct (LLM_init_inv _ _ _ _ _ _ _ _ Hinit) as (_ & _ & _ & Hmr & Hty & _ & Hcl).
  change (default "openai" (Some mt)) with mt in *.
  set (msgs := conversation (prompt_or prompt (proxy_llm.default_prompt g)) digest).
  set (w1 := with_log (log w ++ [start_entry g]) w).
  assert (Hclient : exists cl, proxy_llm.client g = Some (HTTP cl)
                               /\ retry_strategy cl = gateway_policy (default 5 mr)).
  { destruct Hmt; subst mt; eval_eqb_in Hcl; cbv iota in Hcl;
      eexists; (split; [exact Hcl | reflexivity]). }
  destruct Hclient as (cl & Hcl' & Hpol).
  destruct (run_urlopen_exhausts backend cl (default 5 mr) "POST" (url_for mt)
              (data_for mt (proxy_llm.model_name g) msgs) w1 500%Z)
    as (w2 & Hrun & Hnet & _); try reflexivity.
  { exact Hpol. }
  { intros i Hi. cbn [w1 net with_log]. apply Hall. exact Hi. }
  destruct (get_response_spent backend cl mt (proxy_llm.model_name g) msgs w1 None w2 Hmt Hrun)
    as (Hv & Hnet').
  rewrite <- Hty in Hv, Hnet'.
  destruct (generate_after g (HTTP cl) digest prompt w (JStr "") Hcl' Hv)
    as (Hres & Hn & _).
  subst out msgs w1. split; [exact Hres|]. split; [exact Hmr|].
  eexists. rewrite Hn, Hnet'. exact Hnet.
Qed.

(** C6 (amended). When the local server answers 200 with a JSON object
    that has no [message.content], generation raises nothing and returns
    the empty string. *)
Theorem local_response_without_content_returns_empty_string :
  forall (g : proxy_llm.LLM) (cl : CustomHTTPClient) (digest : string)
         (prompt : option string) (w : World)
         (retry_after : option nat) (fields : list (string * json)),
    proxy_llm.model_type g = "ollama" ->
    proxy_llm.client g = Some (HTTP cl) ->
    retry_strategy cl = gateway_policy (proxy_llm.max_retries g) ->
    (forall req, http_server backend (length (net w)) req
                 = HttpReply 200 retry_after (Some (JObj fields))) ->
    local_content (JObj fields) = None ->
    fst (proxy_llm.generate_github_daily_report backend digest prompt false (mkSys g w))
    = Ret (JStr "").
Proof.
  intros g cl digest prompt w ra fields Hmt Hcl Hpol Hreply Hc.
  set (msgs := conversation (prompt_or prompt (proxy_llm.default_prompt g)) digest).
  set (w0 := with_log (log w ++ [start_entry g]) w).
  destruct (run_urlopen_recovers backend cl (proxy_llm.max_retries g) "POST"
              proxy_llm.OLLAMA_API_URL
              (data_for "ollama" (proxy_llm.model_name g) msgs) w0 0 500%Z ra
              (Some (JObj fields)))
    as (w1 & Hrun & _); try reflexivity; try lia.
  { exact Hpol. }
  { cbn [w0 net with_log]. rewrite Nat.add_0_r. apply Hreply. }
  destruct (get_response_local_shape backend cl _ msgs w0 fields w1 Hrun Hc) as (e & Hget).
  rewrite <- Hmt in Hget.
  rewrite (generate_live backend g (HTTP cl) digest prompt w _ _ Hcl Hget).
  reflexivity.
Qed.

Lemma backoff_time_factor_1 j : backoff_time 1 j = backoff_delay j.
Proof.
  unfold backoff_time, backoff_delay, DEFAULT_BACKOFF_MAX.
  destruct (Nat.leb j 1); [reflexivity|]. rewrite Nat.mul_1_l. reflexivity.
Qed.

(** C7 (amended). Against a backend that sends no [Retry-After] header, one
    generation makes [a] attempts with [a] at most [max_retries + 1], and
    the delays it waits between them are [backoff_delay 1], ...,
    [backoff_delay (a - 1)]: a function of the attempt index alone, with
    factor 1, zero after the first failure and doubling from 2 seconds on
    up to the cap of 120. *)
Theorem backoff_doubles_with_the_attempt_index :
  forall (g : proxy_llm.LLM) (cl : CustomHTTPClient) (digest : string)
         (prompt : option string) (w : World),
    proxy_llm.client g = Some (HTTP cl) ->
    retry_strategy cl = gateway_policy (proxy_llm.max_retries g) ->
    (forall i q, no_retry_after (http_server backend i q) = true) ->
    let out := proxy_llm.generate_github_daily_report backend digest prompt false (mkSys g w) in
    exists a,
      a <= proxy_llm.max_retries g + 1
      /\ length (net (world (snd out))) = length (net w) + a
      /\ sleeps (world (snd out)) = (sleeps w ++ map backoff_delay (seq 1 (a - 1)))%list.
Proof.
  intros g cl digest prompt w Hcl Hpol Hnra out.
  set (msgs := conversation (prompt_or prompt (proxy_llm.default_prompt g)) digest).
  set (w0 := with_log (log w ++ [start_entry g]) w).
  destruct (get_response_total backend (HTTP cl) (proxy_llm.model_type g)
              (proxy_llm.model_name g) msgs w0) as (v & Hv).
  destruct (generate_after g (HTTP cl) digest prompt w v Hcl Hv) as (_ & Hn & Hs & _).
  subst out. rewrite Hn, Hs. clear Hn Hs Hv.
  destruct (proxy_llm.model_type g =? "openai") eqn:Hmt.
  - exists 0. split; [lia|].
    unfold proxy_llm._get_response, try_except, bind, client_chat_completions_create.
    rewrite Hmt. unfold LOG, modify, ret, raise. cbn. rewrite app_nil_r. split; [lia|reflexivity].
  - destruct (get_response_http_frame backend cl _ (proxy_llm.model_name g) msgs w0 Hmt)
      as (_ & _ & Hnet & Hsl & _).
    fold msgs w0. rewrite Hnet, Hsl. unfold run_urlopen.
    destruct (urlopen_loop_sleeps backend (total (retry_strategy cl)) (retry_strategy cl)
                (request_of cl "POST" (url_for (proxy_llm.model_type g))
                   (data_for (proxy_llm.model_type g) (proxy_llm.model_name g) msgs)) w0 Hnra)
      as (a & Ha & Hnet' & Hsl').
    exists a. rewrite Hpol in Ha. cbn [total gateway_policy] in Ha.
    split; [lia|]. split.
    + rewrite Hnet', length_app, repeat_length. reflexivity.
    + rewrite Hsl', Hpol. cbn [w0 sleeps with_log backoff_factor history_len gateway_policy].
      f_equal. apply map_ext. intros j. rewrite Nat.add_0_l. apply backoff_time_factor_1.
Qed.

(** C8 (amended). Every request a forwarding gateway sends is a POST to
    the proxy endpoint whose body is [model], [messages], [temperature] 1,
    [max_tokens] 100 and [top_p] 1, in this order; it carries the header
    [Authorization: Bearer <credential>] when the credential is present and
    not empty, and no [Authorization] header otherwise. At least one
    request is sent. *)
Theorem forwarded_request_shape :
  forall (g : proxy_llm.LLM) (key url : option string) (tmo : Z)
         (digest : string) (prompt : option string) (w : World),
    proxy_llm.model_type g = "yesapi" ->
    proxy_llm.client g
    = Some (HTTP (proxy_llm.CustomHTTPClient_init key url (proxy_llm.max_retries g) tmo)) ->
    let out := proxy_llm.generate_github_daily_report backend digest prompt false (mkSys g w) in
    exists req a,
      1 <= a
      /\ net (world (snd out)) = (net w ++ repeat (HttpCall req) a)%list
      /\ r_method req = "POST"
      /\ r_url req = proxy_llm.API_URL
      /\ r_json req
         = JObj [("model", JStr (proxy_llm.model_name g));
                 ("messages",
                  conversation (effective_prompt prompt (proxy_llm.default_prompt g)) digest);
                 ("temperature", JNum 1); ("max_tokens", JNum 100); ("top_p", JNum 1)]
      /\ header "Authorization" (r_headers req)
         = match key with
           | Some k => if String.eqb k "" then None else Some ("Bearer " +:+ k)
           | None => None
           end.
Proof.
  intros g key url tmo digest prompt w Hmt Hcl out.
  rewrite <- prompt_or_effective.
  set (cl := proxy_llm.CustomHTTPClient_init key url (proxy_llm.max_retries g) tmo) in *.
  set (msgs := conversation (prompt_or prompt (proxy_llm.default_prompt g)) digest).
  set (w0 := with_log (log w ++ [start_entry g]) w).
  destruct (get_response_total backend (HTTP cl) (proxy_llm.model_type g)
              (proxy_llm.model_name g) msgs w0) as (v & Hv).
  destruct (generate_after g (HTTP cl) digest prompt w v Hcl Hv) as (_ & Hn & _).
  subst out. rewrite Hn. clear Hn Hv.
  assert (Hopen : (proxy_llm.model_type g =? "openai") = false) by (rewrite Hmt; reflexivity).
  destruct (get_response_http_frame backend cl _ (proxy_llm.model_name g) msgs w0 Hopen)
    as (_ & _ & Hnet & _).
  fold msgs w0. rewrite Hnet. unfold run_urlopen.
  destruct (urlopen_loop_net backend (total (retry_strategy cl)) (retry_strategy cl)
              (request_of cl "POST" (url_for (proxy_llm.model_type g))
                 (data_for (proxy_llm.model_type g) (proxy_llm.model_name g) msgs)) w0)
    as (a & Ha & Hnet' & _).
  eexists _, a. split; [lia|]. split; [exact Hnet'|].
  rewrite Hmt. split; [reflexivity|]. split; [reflexivity|]. split; [reflexivity|].
  cbn [r_headers request_of cl session_headers proxy_llm.CustomHTTPClient_init].
  destruct key as [k|]; [|reflexivity]. destruct (k =? ""); reflexivity.
Qed.

End BackendCalls.

(** * Every outcome of a request and of a generation *)

Section RequestFacts.

Context (backend : Backend).






(** From the value [_get_response] returns to the outcome of a live
    generation of [proxy_llm]. *)
Lemma proxy_generate_of_response g cl digest prompt w found :
  proxy_llm.client g = Some cl ->
  (exists x,
     fst (proxy_llm._get_response backend cl (proxy_llm.model_type g) (proxy_llm.model_name g)
            (conversation (prompt_or prompt (proxy_llm.default_prompt g)) digest)
            (with_log (log w ++ [start_entry g]) w)) = Ret x
     /\ (if truthy x then x else JStr "") = found) ->
  let inner :=
    snd (proxy_llm._get_response backend cl (proxy_llm.model_type g) (proxy_llm.model_name g)
           (conversation (prompt_or prompt (proxy_llm.default_prompt g)) digest)
           (with_log (log w ++ [start_entry g]) w)) in
  let out := proxy_llm.generate_github_daily_report backend digest prompt false (mkSys g w) in
  fst out = Ret found /\ net (world (snd out)) = net inner /\ self (snd out) = g.
Proof.
  intros Hcl (x & Hx & Hfound) inner out. subst inner out.
  destruct (proxy_llm._get_response backend cl _ _ _ _) as [r w1] eqn:Hget.
  cbn [fst snd] in *. subst r.
  rewrite (generate_live backend g cl digest prompt w x w1 Hcl Hget).
  cbn [fst snd world self net with_log]. rewrite Hfound. repeat split.
Qed.

Lemma llm_generate_of_response g digest prompt w found :
  (exists x,
     fst (llm._get_response backend (llm.client g)
            (conversation (prompt_or prompt (llm.default_prompt g)) digest)
            (with_log (log w ++ [mkLog INFO "Starting report generation using GPT model."
                                   NoArg]) w)) = Ret x
     /\ (if truthy x then x else JStr "") = found) ->
  let inner :=
    snd (llm._get_response backend (llm.client g)
           (conversation (prompt_or prompt (llm.default_prompt g)) digest)
           (with_log (log w ++ [mkLog INFO "Starting report generation using GPT model."
                                  NoArg]) w)) in
  let out := llm.generate_daily_report backend digest prompt false (mkSys g w) in
  fst out = Ret found /\ net (world (snd out)) = net inner /\ self (snd out) = g.
Proof.
  intros (x & Hx & Hfound) inner out. subst inner out.
  destruct (llm._get_response backend (llm.client g) _ _) as [r w1] eqn:Hget.
  cbn [fst snd] in *. subst r.
  rewrite (llm_generate_live backend g digest prompt w x w1 Hget).
  cbn [fst snd world self net with_log]. rewrite Hfound. repeat split.
Qed.



(** The closing attempt, retries used up: a failure below HTTP is
    [MaxRetryError] with that failure as its reason. *)
Lemma urlopen_loop_spent_unreachable r req w err :
  http_server backend (length (net w)) req = ConnFailure err ->
  is_method_retryable r (r_method req) = true ->
  urlopen_loop backend 0 r req w
  = (Raise (MaxRetryError (Some err)), with_net (net w ++ [HttpCall req]) w).
Proof.
  intros Hreply Hm. simpl. rewrite Hreply, Hm, andb_false_r. reflexivity.
Qed.

(** All [n + 1] attempts fail below HTTP. *)
Lemma run_urlopen_unreachable c n method target data w :
  retry_strategy c = gateway_policy n ->
  existsb (String.eqb method) RETRY_METHODS = true ->
  (forall i, i <= n ->
     reply_status (http_server backend (length (net w) + i)
                     (request_of c method target data)) = None) ->
  exists err w1,
    run_urlopen backend c method target data w = (Raise (MaxRetryError (Some err)), w1)
    /\ net w1 = (net w ++ repeat (HttpCall (request_of c method target data)) (S n))%list.
Proof.
  intros Hpol Hm Hall.
  unfold run_urlopen.
  set (req := request_of c method target data) in *.
  assert (Hretry : is_method_retryable (retry_strategy c) (r_method req) = true).
  { unfold is_method_retryable. rewrite Hpol.
    cbn [gateway_policy allowed_methods r_method req request_of].
    unfold RETRY_METHODS in *. exact Hm. }
  destruct (urlopen_loop_forced backend n (total (retry_strategy c)) (retry_strategy c) req w)
    as (r1 & w1 & Heq & Hfl & Ham & Hnet & _).
  { rewrite Hpol. reflexivity. }
  { intros i Hi. specialize (Hall i ltac:(lia)).
    destruct (http_server backend (length (net w) + i) req); [discriminate Hall|].
    exact Hretry. }
  rewrite Heq. replace (total (retry_strategy c) - n) with 0 by (rewrite Hpol; cbn; lia).
  specialize (Hall n ltac:(lia)).
  rewrite <- (repeat_length (HttpCall req) n), <- length_app, <- Hnet in Hall.
  destruct (http_server backend (length (net w1)) req) as [st ra bd|err] eqn:Hreply;
    [discriminate Hall|].
  rewrite (urlopen_loop_spent_unreachable r1 req w1 err Hreply).
  - eexists _, _. split; [reflexivity|].
    cbn [net with_net]. rewrite Hnet, <- app_assoc.
    replace (S n) with (n + 1) by lia. rewrite repeat_app. reflexivity.
  - unfold is_method_retryable in *. rewrite Ham. exact Hretry.
Qed.

(** X5. When the backend cannot be reached on any of the [max_retries + 1]
    attempts (refused connection, time-out, broken connection), an HTTP
    gateway of [proxy_llm] raises nothing: it returns the empty string,
    having sent exactly [max_retries + 1] requests, all the same. *)
Theorem unreachable_backend_returns_empty_string :
  forall (g : proxy_llm.LLM) (cl : CustomHTTPClient) (digest : string)
         (prompt : option string) (w : World),
    proxy_llm.model_type g = "yesapi" \/ proxy_llm.model_type g = "ollama" ->
    proxy_llm.client g = Some (HTTP cl) ->
    retry_strategy cl = gateway_policy (proxy_llm.max_retries g) ->
    (forall i req, i <= proxy_llm.max_retries g ->
       reply_status (http_server backend (length (net w) + i) req) = None) ->
    let out := proxy_llm.generate_github_daily_report backend digest prompt false (mkSys g w) in
    fst out = Ret (JStr "")
    /\ exists req,
         net (world (snd out))
         = (net w ++ repeat (HttpCall req) (S (proxy_llm.max_retries g)))%list.
Proof.
  intros g cl digest prompt w Hmt Hcl Hpol Hall out.
  set (msgs := conversation (prompt_or prompt (proxy_llm.default_prompt g)) digest).
  set (w0 := with_log (log w ++ [start_entry g]) w).
  destruct (run_urlopen_unreachable cl (proxy_llm.max_retries g) "POST"
              (url_for (proxy_llm.model_type g))
              (data_for (proxy_llm.model_type g) (proxy_llm.model_name g) msgs) w0)
    as (err & w1 & Hrun & Hnet); try reflexivity.
  { exact Hpol. }
  { intros i Hi. cbn [w0 net with_log]. apply Hall. exact Hi. }
  destruct (get_response_spent backend cl _ (proxy_llm.model_name g) msgs w0 _ w1 Hmt Hrun)
    as (Hv & Hnet').
  destruct (generate_after backend g (HTTP cl) digest prompt w (JStr "") Hcl Hv)
    as (Hres & Hn & _).
  subst out msgs w0. split; [exact Hres|].
  eexists. rewrite Hn, Hnet'. exact Hnet.
Qed.

(** X6. A gateway of [proxy_llm] built for a model type other than
    [openai], [yesapi] and [ollama] has no client. Its live generation
    raises [AttributeError], outside any handler, before anything is sent;
    only the record that the generation starts is logged. *)
Theorem unknown_model_type_raises_on_live_generation :
  forall (mr : option nat) (mt : string) (mn pf : option string) (t : option Z)
         (w0 w0' : World) (g : proxy_llm.LLM)
         (digest : string) (prompt : option string) (w : World),
    proxy_llm.LLM_init mr (Some mt) mn pf t w0 = (Ret g, w0') ->
    mt <> "openai" -> mt <> "yesapi" -> mt <> "ollama" ->
    proxy_llm.client g = None
    /\ proxy_llm.generate_github_daily_report backend digest prompt false (mkSys g w)
       = (Raise (AttributeError "LLM" "client"),
          mkSys g (with_log (log w ++ [start_entry g]) w)).
Proof.
  intros mr mt mn pf t w0 w0' g digest prompt w Hinit Ho Hy Hl.
  destruct (LLM_init_inv _ _ _ _ _ _ _ _ Hinit) as (_ & _ & _ & _ & _ & _ & Hcl).
  change (default "openai" (Some mt)) with mt in Hcl.
  apply String.eqb_neq in Ho, Hy, Hl. rewrite Ho, Hy, Hl in Hcl.
  split; [exact Hcl|].
  unfold proxy_llm.generate_github_daily_report, bind, gets, in_world,
    proxy_llm.getattr_client, LOG, modify, ret.
  cbn [self world]. rewrite Hcl. reflexivity.
Qed.

(** X7. With the SDK as client, both gateways make exactly one call and
    raise nothing: the report is the text of the first choice of the
    completion, and the empty string when the SDK raises, when the list of
    choices is empty, and when the first choice has no text or an empty
    one. *)
Theorem direct_generation_reports_first_choice :
  forall (g : proxy_llm.LLM) (g' : llm.LLM) (digest : string)
         (prompt : option string) (w : World) (reply : SdkReply),
    proxy_llm.model_type g = "openai" ->
    proxy_llm.client g = Some OpenAI ->
    llm.client g' = OpenAI ->
    (forall data, sdk_server backend (length (net w)) data = reply) ->
    let out := proxy_llm.generate_github_daily_report backend digest prompt false (mkSys g w) in
    let out' := llm.generate_daily_report backend digest prompt false (mkSys g' w) in
    fst out = Ret (sdk_report reply)
    /\ fst out' = Ret (sdk_report reply)
    /\ (exists data, net (world (snd out)) = (net w ++ [SdkCall data])%list)
    /\ (exists data, net (world (snd out')) = (net w ++ [SdkCall data])%list).
Proof.
  intros g g' digest prompt w reply Hmt Hcl Hcl' Hreply out out'.
  assert (Hproxy :
            exists x,
              fst (proxy_llm._get_response backend OpenAI (proxy_llm.model_type g)
                     (proxy_llm.model_name g)
                     (conversation (prompt_or prompt (proxy_llm.default_prompt g)) digest)
                     (with_log (log w ++ [start_entry g]) w)) = Ret x
              /\ (if truthy x then x else JStr "") = sdk_report reply
              /\ exists data,
                   net (snd (proxy_llm._get_response backend OpenAI (proxy_llm.model_type g)
                               (proxy_llm.model_name g)
                               (conversation (prompt_or prompt (proxy_llm.default_prompt g))
                                  digest)
                               (with_log (log w ++ [start_entry g]) w)))
                   = (net w ++ [SdkCall data])%list).
  { rewrite Hmt.
    unfold proxy_llm._get_response, try_except, bind, client_chat_completions_create,
      chat_completions_create.
    eval_eqb. cbv beta iota zeta. cbn [net with_log]. rewrite Hreply.
    unfold LOG, modify, lift_res, first_choice_content, sdk_report.
    destruct reply as [[|[[|a text]|] rest]|]; cbn;
      eexists; (split; [reflexivity|]); (split; [reflexivity|]); eexists; reflexivity. }
  assert (Hllm :
            exists x,
              fst (llm._get_response backend (llm.client g')
                     (conversation (prompt_or prompt (llm.default_prompt g')) digest)
                     (with_log (log w ++ [mkLog INFO
                        "Starting report generation using GPT model." NoArg]) w)) = Ret x
              /\ (if truthy x then x else JStr "") = sdk_report reply
              /\ exists data,
                   net (snd (llm._get_response backend (llm.client g')
                               (conversation (prompt_or prompt (llm.default_prompt g')) digest)
                               (with_log (log w ++ [mkLog INFO
                                  "Starting report generation using GPT model." NoArg]) w)))
                   = (net w ++ [SdkCall data])%list).
  { rewrite Hcl'.
    unfold llm._get_response, try_except, bind, chat_completions_create.
    cbv beta iota zeta. cbn [net with_log]. rewrite Hreply.
    unfold LOG, modify, lift_res, first_choice_content, sdk_report.
    destruct reply as [[|[[|a text]|] rest]|]; cbn;
      eexists; (split; [reflexivity|]); (split; [reflexivity|]); eexists; reflexivity. }
  destruct Hproxy as (x & Hx & Hxv & data & Hnet).
  destruct Hllm as (x' & Hx' & Hxv' & data' & Hnet').
  destruct (proxy_generate_of_response g OpenAI digest prompt w (sdk_report reply) Hcl)
    as (Hres & Hn & _); [exists x; split; assumption|].
  destruct (llm_generate_of_response g' digest prompt w (sdk_report reply))
    as (Hres' & Hn' & _); [exists x'; split; assumption|].
  subst out out'. split; [exact Hres|]. split; [exact Hres'|]. split.
  - exists data. rewrite Hn. exact Hnet.
  - exists data'. rewrite Hn'. exact Hnet'.
Qed.

(** A live generation through an HTTP client, for a model type other than
    [openai], sends one and the same request at least once. *)
Lemma http_generate_sends g cl digest prompt w :
  proxy_llm.client g = Some (HTTP cl) ->
  String.eqb (proxy_llm.model_type g) "openai" = false ->
  exists a,
    1 <= a <= S (total (retry_strategy cl))
    /\ net (world (snd (proxy_llm.generate_github_daily_report backend digest prompt false
                          (mkSys g w))))
       = (net w
          ++ repeat (HttpCall
                       (request_of cl "POST" (url_for (proxy_llm.model_type g))
                          (data_for (proxy_llm.model_type g) (proxy_llm.model_name g)
                             (conversation (prompt_or prompt (proxy_llm.default_prompt g))
                                digest)))) a)%list.
Proof.
  intros Hcl Hmt.
  set (msgs := conversation (prompt_or prompt (proxy_llm.default_prompt g)) digest).
  set (w0 := with_log (log w ++ [start_entry g]) w).
  destruct (get_response_total backend (HTTP cl) (proxy_llm.model_type g)
              (proxy_llm.model_name g) msgs w0) as (v & Hv).
  destruct (generate_after backend g (HTTP cl) digest prompt w v Hcl Hv) as (_ & Hn & _).
  rewrite Hn.
  destruct (get_response_http_frame backend cl _ (proxy_llm.model_name g) msgs w0 Hmt)
    as (_ & _ & Hnet & _).
  fold msgs w0. rewrite Hnet. unfold run_urlopen.
  destruct (urlopen_loop_net backend (total (retry_strategy cl)) (retry_strategy cl)
              (request_of cl "POST" (url_for (proxy_llm.model_type g))
                 (data_for (proxy_llm.model_type g) (proxy_llm.model_name g) msgs)) w0)
    as (a & Ha & Hnet' & _).
  exists a. split; [exact Ha|exact Hnet'].
Qed.



(** X9. Every request of a gateway built for the local server is this one:
    a POST to the local endpoint, with no header set by the gateway
    whatever the environment holds, with the local endpoint itself as
    proxy for both schemes, the time-out given to the constructor (2000 by
    default), and the body [model], [messages], [max_tokens] 10000,
    [context_length] 10000, [top_p] 1, [temperature] 1, [stream] false, in
    this order. Between one and [max_retries + 1] of them are sent. *)
Theorem local_request_shape :
  forall (mr : option nat) (mn pf : option string) (t : option Z)
         (w0 w0' : World) (g : proxy_llm.LLM)
         (digest : string) (prompt : option string) (w : World),
    proxy_llm.LLM_init mr (Some "ollama") mn pf t w0 = (Ret g, w0') ->
    let out := proxy_llm.generate_github_daily_report backend digest prompt false (mkSys g w) in
    exists a,
      1 <= a <= S (default 5 mr)
      /\ net (world (snd out))
         = (net w
            ++ repeat
                 (HttpCall
                    (mkRequest "POST" "http://localhost:11434/api/chat" []
                       [("http", "http://localhost:11434/api/chat");
                        ("https", "http://localhost:11434/api/chat")]
                       (JObj [("model", JStr (default "gpt-4o-mini" mn));
                              ("messages",
                               conversation
                                 (effective_prompt prompt (proxy_llm.default_prompt g)) digest);
                              ("max_tokens", JNum 10000); ("context_length", JNum 10000);
                              ("top_p", JNum 1); ("temperature", JNum 1);
                              ("stream", JBool false)])
                       (default 2000%Z t))) a)%list.
Proof.
  intros mr mn pf t w0 w0' g digest prompt w Hinit out.
  destruct (LLM_init_inv _ _ _ _ _ _ _ _ Hinit) as (_ & _ & _ & _ & Hty & Hname & Hcl).
  change (default "openai" (Some "ollama")) with "ollama" in *.
  eval_eqb_in Hcl. cbv iota in Hcl.
  destruct (http_generate_sends g _ digest prompt w Hcl) as (a & Ha & Hnet).
  { rewrite Hty. reflexivity. }
  exists a. split; [exact Ha|].
  subst out. rewrite Hnet, Hty, Hname, prompt_or_effective. reflexivity.
Qed.



(** What a successful construction of [llm] establishes. *)
Lemma llm_LLM_init_inv mr t w0 g w1 :
  llm.LLM_init mr t w0 = (Ret g, w1) ->
  w1 = w0
  /\ files w0 !! "./../prompts/report_prompt.txt" = Some (llm.default_prompt g)
  /\ llm.max_retries g = default 5 mr
  /\ llm.client g
     = (if py_not (environ w0 !! "OPENAI_PROXY_URL") then OpenAI
        else HTTP (llm.CustomHTTPClient_init (environ w0 !! "OPENAI_API_KEY")
                     (environ w0 !! "OPENAI_PROXY_URL") (default 5 mr) (default 30%Z t)))
  /\ (py_not (environ w0 !! "OPENAI_PROXY_URL") = true ->
      is_Some (environ w0 !! "OPENAI_API_KEY")).
Proof.
  cbv beta iota zeta delta
    [llm.LLM_init bind ret raise os_getenv gets OpenAI_init read_file fst snd].
  destruct (py_not (environ w0 !! "OPENAI_PROXY_URL"));
    [destruct (environ w0 !! "OPENAI_API_KEY") eqn:Hkey|];
    try (intros H; discriminate H);
    destruct (files w0 !! "./../prompts/report_prompt.txt") eqn:Hfile;
    intros H; inversion H; subst; cbn; repeat split; try assumption;
    try (intros _; eexists; reflexivity); intros Hf; discriminate Hf.
Qed.

(** X12. A gateway of [llm] built while [OPENAI_PROXY_URL] is set talks
    HTTP, and every request it sends is this one: a POST to the fixed
    endpoint through that proxy, with the time-out given to the constructor
    (30 by default), the body [model] gpt-4o-mini, [messages],
    [temperature] 1, [max_tokens] 1000, [top_p] 1, and an [Authorization]
    header that is always set: [Bearer] followed by the key read at
    construction, and [Bearer None] when there was no key. *)
Theorem llm_request_shape :
  forall (mr : option nat) (t : option Z) (w0 w0' : World) (g : llm.LLM) (proxy : string)
         (digest : string) (prompt : option string) (w : World),
    llm.LLM_init mr t w0 = (Ret g, w0') ->
    environ w0 !! "OPENAI_PROXY_URL" = Some proxy ->
    proxy <> "" ->
    let out := llm.generate_daily_report backend digest prompt false (mkSys g w) in
    exists a,
      1 <= a <= S (default 5 mr)
      /\ net (world (snd out))
         = (net w
            ++ repeat
                 (HttpCall
                    (mkRequest "POST" "https://api.yesapikey.com/v1/chat/completions"
                       [("Authorization",
                         "Bearer " +:+ match environ w0 !! "OPENAI_API_KEY" with
                                       | Some k => k
                                       | None => "None"
                                       end);
                        ("Content-Type", "application/json")]
                       [("http", proxy); ("https", proxy)]
                       (JObj [("model", JStr "gpt-4o-mini");
                              ("messages",
                               conversation
                                 (effective_prompt prompt (llm.default_prompt g)) digest);
                              ("temperature", JNum 1); ("max_tokens", JNum 1000);
                              ("top_p", JNum 1)])
                       (default 30%Z t))) a)%list.
Proof.
  intros mr t w0 w0' g proxy digest prompt w Hinit Hproxy Hne out.
  destruct (llm_LLM_init_inv _ _ _ _ _ Hinit) as (_ & _ & _ & Hcl & _).
  apply String.eqb_neq in Hne.
  rewrite Hproxy in Hcl. cbn [py_not] in Hcl. rewrite Hne in Hcl.
  set (msgs := conversation (prompt_or prompt (llm.default_prompt g)) digest).
  set (w1 := with_log (log w ++ [mkLog INFO "Starting report generation using GPT model."
                                   NoArg]) w).
  destruct (llm_get_response_frame backend
              (llm.CustomHTTPClient_init (environ w0 !! "OPENAI_API_KEY") (Some proxy)
                 (default 5 mr) (default 30%Z t)) msgs w1) as (v & Hv & Hnet).
  rewrite <- Hcl in Hv, Hnet.
  destruct (llm_generate_of_response g digest prompt w (if truthy v then v else JStr ""))
    as (_ & Hn & _).
  { exists v. split; [exact Hv|reflexivity]. }
  subst out. rewrite Hn. fold msgs w1. rewrite Hnet. unfold run_urlopen.
  match goal with
  | |- context [urlopen_loop backend ?b ?r ?req w1] =>
      destruct (urlopen_loop_net backend b r req w1) as (a & Ha & Hnet' & _)
  end.
  exists a. split; [exact Ha|].
  rewrite Hnet'. subst msgs. rewrite prompt_or_effective.
  cbn [w1 net with_log]. unfold request_of, llm.CustomHTTPClient_init, llm.str_of_key.
  cbn [session_headers session_proxies client_timeout]. rewrite Hne. reflexivity.
Qed.

(** X13. The one exception a live generation can raise. A gateway of
    [proxy_llm] that has a client always returns a value, whatever the
    backend does; one without a client raises [AttributeError]. A gateway
    of [llm] always returns a value. Neither changes the gateway. *)
Theorem live_generation_raises_only_without_client :
  forall (g : proxy_llm.LLM) (g' : llm.LLM) (digest : string)
         (prompt : option string) (w : World),
    let out := proxy_llm.generate_github_daily_report backend digest prompt false (mkSys g w) in
    let out' := llm.generate_daily_report backend digest prompt false (mkSys g' w) in
    match proxy_llm.client g with
    | Some _ => exists v, fst out = Ret v
    | None => fst out = Raise (AttributeError "LLM" "client")
    end
    /\ (exists v, fst out' = Ret v)
    /\ self (snd out) = g
    /\ self (snd out') = g'.
Proof.
  intros g g' digest prompt w out out'. subst out out'.
  assert (Hllm : exists v, fst (llm.generate_daily_report backend digest prompt false
                                  (mkSys g' w)) = Ret v
                           /\ self (snd (llm.generate_daily_report backend digest prompt false
                                           (mkSys g' w))) = g').
  { destruct (llm_get_response_calls backend (llm.client g')
                (conversation (prompt_or prompt (llm.default_prompt g')) digest)
                (with_log (log w ++ [mkLog INFO "Starting report generation using GPT model."
                                       NoArg]) w)) as (v & _ & Hv & _).
    destruct (llm_generate_of_response g' digest prompt w (if truthy v then v else JStr ""))
      as (Hres & _ & Hself); [exists v; split; [exact Hv|reflexivity]|].
    eexists. split; [exact Hres|exact Hself]. }
  destruct Hllm as (v' & Hres' & Hself').
  destruct (proxy_llm.client g) as [cl|] eqn:Hcl.
  - destruct (get_response_total backend cl (proxy_llm.model_type g) (proxy_llm.model_name g)
                (conversation (prompt_or prompt (proxy_llm.default_prompt g)) digest)
                (with_log (log w ++ [start_entry g]) w)) as (v & Hv).
    destruct (proxy_generate_of_response g cl digest prompt w (if truthy v then v else JStr "")
                Hcl) as (Hres & _ & Hself); [exists v; split; [exact Hv|reflexivity]|].
    split; [eexists; exact Hres|]. split; [eexists; exact Hres'|].
    split; [exact Hself|exact Hself'].
  - unfold proxy_llm.generate_github_daily_report, bind, gets, in_world,
      proxy_llm.getattr_client, LOG, modify, ret.
    cbn [self world]. rewrite Hcl. cbn.
    split; [reflexivity|]. split; [eexists; exact Hres'|]. split; [reflexivity|exact Hself'].
Qed.

End RequestFacts.

(** * Facts about [hacker_news_client] *)

Lemma parse_rows_spec rows acc :
  hacker_news_client.parse_rows rows acc
  = if forallb has_titleline rows
    then Ret (acc ++ omap row_story rows)%list
    else Raise (AttributeError "NoneType" "find").
Proof.
  revert acc. induction rows as [|row rows IH]; intros acc; simpl.
  - rewrite app_nil_r. reflexivity.
  - unfold has_titleline, row_story, titleline.
    destruct (find_class "span" "titleline" row) as [span|]; simpl; [|reflexivity].
    destruct (find "a" span) as [a|]; rewrite IH.
    + unfold has_titleline, titleline.
      destruct (forallb _ rows); [|reflexivity]. rewrite <- app_assoc. reflexivity.
    + reflexivity.
Qed.

(** X14. [_parse_stories] goes through the rows of class [athing] in
    document order. If every row holds a title line, it returns one story
    for each row whose title line holds a link, with the link's text and
    its [href] (the empty string when it has none), and skips the others.
    If some row has no title line, it raises [AttributeError], whatever
    the other rows hold. *)
Theorem parse_stories_spec :
  forall soup : html,
    hacker_news_client._parse_stories soup
    = if forallb has_titleline (find_all "tr" "athing" soup)
      then Ret (omap row_story (find_all "tr" "athing" soup))
      else Raise (AttributeError "NoneType" "find").
Proof.
  intros soup. unfold hacker_news_client._parse_stories. apply parse_rows_spec.
Qed.

(** What [fetch_hackernews_top_stories] makes of a page: the handler
    covers the errors of [requests] and nothing else. *)
Lemma fetch_page status soup w :
  hacker_news_client.fetch_hackernews_top_stories (Page status soup) w
  = if ((400 <=? status)%Z && (status <? 600)%Z)
    then (Ret [],
          with_log (log w ++ [mkLog ERROR "获取Hacker News的热门新闻失败："
                                (ExnArg (RequestException (HTTPError status)))]) w)
    else (hacker_news_client._parse_stories soup, w).
Proof.
  unfold hacker_news_client.fetch_hackernews_top_stories, try_except, bind,
    hacker_news_client.requests_get, raise_for_status, lift_res, ret.
  cbn [fst snd].
  destruct ((400 <=? status)%Z && (status <? 600)%Z); [reflexivity|].
  cbn. destruct (hacker_news_client._parse_stories soup) as [stories|e] eqn:Hparse;
    [reflexivity|].
  unfold hacker_news_client._parse_stories in Hparse.
  rewrite parse_rows_spec in Hparse.
  destruct (forallb _ _); inversion Hparse. reflexivity.
Qed.

Lemma fetch_unreachable err w :
  exists kind,
    hacker_news_client.fetch_hackernews_top_stories (Unreachable err) w
    = (Ret [],
       with_log (log w ++ [mkLog ERROR "获取Hacker News的热门新闻失败："
                             (ExnArg (RequestException kind))]) w).
Proof.
  unfold hacker_news_client.fetch_hackernews_top_stories, try_except, bind,
    hacker_news_client.requests_get, raise.
  destruct err; cbn; eexists; reflexivity.
Qed.

(** The outcome of [fetch_hackernews_top_stories] never touches the
    files. *)
Lemma fetch_keeps_files site w :
  files (snd (hacker_news_client.fetch_hackernews_top_stories site w)) = files w
  /\ unwritable (snd (hacker_news_client.fetch_hackernews_top_stories site w)) = unwritable w.
Proof.
  destruct site as [status soup|err].
  - rewrite fetch_page.
    destruct ((400 <=? status)%Z && (status <? 600)%Z); split; reflexivity.
  - destruct (fetch_unreachable err w) as (kind & Heq). rewrite Heq. split; reflexivity.
Qed.

(** The first line written is numbered 1. *)
Lemma story_lines_start s rest :
  exists tail,
    hacker_news_client.story_lines 1 (s :: rest) = String "1" (String "." tail).
Proof. cbn. eexists. reflexivity. Qed.

(** X15. [export_top_stories] writes at most one file, and only when it
    has at least one story: it then returns the path of the file, which
    holds one numbered line for each story and nothing else. In every other
    case, whether it returns [None] or raises, the files are as they were.
    The text [No stories found.] is never what it writes. *)
Theorem export_writes_only_stories :
  forall (site : PageReply) (clock : Clock) (date hour : option string) (w : World),
    let out := hacker_news_client.export_top_stories site clock date hour w in
    match fst out with
    | Ret (Some file_path) =>
        exists s rest,
          files (snd out)
          = <[file_path := hacker_news_client.story_lines 1 (s :: rest)]> (files w)
          /\ hacker_news_client.story_lines 1 (s :: rest)
             <> "No stories found." +:+ String newline ""
    | _ => files (snd out) = files w
    end.
Proof.
  intros site clock date hour w out. subst out.
  unfold hacker_news_client.export_top_stories, bind, LOG, modify, ret.
  cbv beta iota zeta.
  match goal with
  | |- context [hacker_news_client.fetch_hackernews_top_stories site ?w1] =>
      destruct (fetch_keeps_files site w1) as (Hfiles & Hunw);
      destruct (hacker_news_client.fetch_hackernews_top_stories site w1)
        as [[stories|e] w2] eqn:Hfetch
  end; cbn [fst snd files unwritable with_log] in *; [|exact Hfiles].
  destruct stories as [|s rest]; [exact Hfiles|].
  unfold os_makedirs, write_file.
  destruct (bool_decide (_ ∈ unwritable w2)); [exact Hfiles|].
  destruct (bool_decide (_ ∈ unwritable w2)); [exact Hfiles|].
  cbn [fst snd files with_log with_files]. exists s, rest. split.
  - rewrite Hfiles. reflexivity.
  - destruct (story_lines_start s rest) as (tail & Hstart). rewrite Hstart.
    intros H. discriminate H.
Qed.

(** X16. One row without a title line is enough for the whole export to
    fail: [export_top_stories] raises [AttributeError], which the handler
    for the errors of [requests] does not cover, and writes nothing, not
    even a record of the failure. *)
Theorem malformed_row_aborts_export :
  forall (clock : Clock) (status : Z) (soup : html) (row : html)
         (date hour : option string) (w : World),
    is_error_status status = false ->
    In row (find_all "tr" "athing" soup) ->
    titleline row = None ->
    hacker_news_client.export_top_stories (Page status soup) clock date hour w
    = (Raise (AttributeError "NoneType" "find"), with_log (log w ++ [export_begins]) w).
Proof.
  intros clock status soup row date hour w Hstatus Hin Hrow.
  assert (Hall : forallb has_titleline (find_all "tr" "athing" soup) = false).
  { apply not_true_is_false. intros Hall.
    rewrite forallb_forall in Hall. specialize (Hall row Hin).
    unfold has_titleline in Hall. rewrite Hrow in Hall. discriminate Hall. }
  unfold hacker_news_client.export_top_stories, bind, LOG, modify, ret.
  cbv beta iota zeta. rewrite fetch_page.
  unfold is_error_status in Hstatus. rewrite Hstatus.
  unfold hacker_news_client._parse_stories. rewrite parse_rows_spec, Hall.
  reflexivity.
Qed.

(** X17. When the site cannot be reached or answers with an error status,
    [export_top_stories] raises nothing and returns [None]; it writes no
    file, and logs that it starts, the failure of the request, and that no
    story could be had. *)
Theorem failed_fetch_exports_nothing :
  forall (site : PageReply) (clock : Clock) (date hour : option string) (w : World),
    match site with
    | Page status _ => is_error_status status = true
    | Unreachable _ => True
    end ->
    let out := hacker_news_client.export_top_stories site clock date hour w in
    fst out = Ret None
    /\ files (snd out) = files w
    /\ exists kind,
         log (snd out)
         = (log w ++ [export_begins;
                      mkLog ERROR "获取Hacker News的热门新闻失败："
                        (ExnArg (RequestException kind));
                      mkLog ERROR "无法获取Hacker News的热门新闻。" NoArg])%list.
Proof.
  intros site clock date hour w Hsite out. subst out.
  unfold hacker_news_client.export_top_stories, bind, LOG, modify, ret.
  cbv beta iota zeta.
  destruct site as [status soup|err].
  - rewrite fetch_page. unfold is_error_status in Hsite. rewrite Hsite.
    cbn. split; [reflexivity|]. split; [reflexivity|].
    eexists. rewrite <- !app_assoc. reflexivity.
  - match goal with
    | |- context [hacker_news_client.fetch_hackernews_top_stories _ ?w1] =>
        destruct (fetch_unreachable err w1) as (kind & Heq)
    end.
    rewrite Heq. cbn. split; [reflexivity|]. split; [reflexivity|].
    exists kind. rewrite <- !app_assoc. reflexivity.
Qed.

Lemma ends_with_slash_app p d :
  d <> "" -> ends_with_slash (p +:+ d) = ends_with_slash d.
Proof.
  intros Hd. induction p as [|c p IH]; [reflexivity|].
  change (String c p +:+ d) with (String c (p +:+ d)).
  destruct (p +:+ d) as [|c' rest] eqn:Happ.
  - destruct p; [exfalso; apply Hd; exact Happ|discriminate Happ].
  - exact IH.
Qed.

Lemma starts_with_slash_app h tail :
  starts_with_slash h = false -> starts_with_slash tail = false ->
  starts_with_slash (h +:+ tail) = false.
Proof. intros Hh Ht. destruct h; [exact Ht|exact Hh]. Qed.

(** X18. Where the export goes. For a date that is not empty and neither
    starts nor ends with a slash, and an hour that does not start with one,
    the file is [daily_progress/hacker_news/<date>/<hour>.md]. A date that
    starts with a slash takes the file out of [daily_progress]: the file
    is then [<date>/<hour>.md]. *)
Theorem export_path_spec :
  forall date hour : string,
    ends_with_slash date = false ->
    starts_with_slash hour = false ->
    date <> "" ->
    export_path date hour
    = if starts_with_slash date
      then date +:+ "/" +:+ hour +:+ ".md"
      else "daily_progress/hacker_news/" +:+ date +:+ "/" +:+ hour +:+ ".md".
Proof.
  intros date hour Hend Hhour Hne.
  assert (Hfile : starts_with_slash (hour +:+ ".md") = false)
    by (apply starts_with_slash_app; [exact Hhour|reflexivity]).
  unfold export_path, os_path_join. cbn [fold_left].
  change (path_join2 "daily_progress" "hacker_news") with "daily_progress/hacker_news".
  unfold path_join2 at 2.
  destruct (starts_with_slash date) eqn:Hstart.
  - unfold path_join2. rewrite Hfile, Hend.
    destruct (String.eqb date "") eqn:Heq; [apply String.eqb_eq in Heq; contradiction|].
    reflexivity.
  - change ("daily_progress/hacker_news" =? "") with false.
    change (ends_with_slash "daily_progress/hacker_news") with false.
    cbn [orb]. unfold path_join2. rewrite Hfile.
    change ("daily_progress/hacker_news" +:+ "/" +:+ date)
      with ("daily_progress/hacker_news/" +:+ date).
    rewrite (ends_with_slash_app "daily_progress/hacker_news/" date Hne), Hend.
    reflexivity.
Qed.

(** X19. A page with no error status whose rows all hold a title line, at
    least one of them with a link, is exported: [export_top_stories]
    returns the path made of the date and the hour, those given or else
    those of the clock, and the file there holds the stories in document
    order, one per line, numbered from 1; no other file changes. *)
Theorem export_writes_numbered_stories :
  forall (clock : Clock) (status : Z) (soup : html)
         (date hour : option string) (w : World),
    let rows := find_all "tr" "athing" soup in
    let d := match date with Some d => d | None => today clock end in
    let h := match hour with Some h => h | None => this_hour clock end in
    is_error_status status = false ->
    forallb has_titleline rows = true ->
    omap row_story rows <> [] ->
    os_path_join "daily_progress" ["hacker_news"; d] ∉ unwritable w ->
    export_path d h ∉ unwritable w ->
    let out := hacker_news_client.export_top_stories (Page status soup) clock date hour w in
    fst out = Ret (Some (export_path d h))
    /\ files (snd out)
       = <[export_path d h := hacker_news_client.story_lines 1 (omap row_story rows)]>
           (files w)
    /\ log (snd out) = (log w ++ [export_begins; export_done (export_path d h)])%list.
Proof.
  intros clock status soup date hour w rows d h Hstatus Hall Hsome Hdir Hfile out.
  subst out.
  unfold hacker_news_client.export_top_stories, bind, LOG, modify, ret.
  cbv beta iota zeta. rewrite fetch_page.
  unfold is_error_status in Hstatus. rewrite Hstatus.
  unfold hacker_news_client._parse_stories. rewrite parse_rows_spec.
  fold rows. rewrite Hall. cbn [app].
  destruct (omap row_story rows) as [|s rest] eqn:Hstories; [contradiction|].
  fold d h. unfold os_makedirs, write_file. cbn [unwritable with_log].
  rewrite (bool_decide_eq_false_2 _ Hdir).
  fold (export_path d h). cbn [unwritable with_log].
  rewrite (bool_decide_eq_false_2 _ Hfile).
  cbn. split; [reflexivity|]. split; [reflexivity|].
  rewrite <- app_assoc. reflexivity.
Qed.

(** * Reading the dry-run file back *)

Lemma unescape_escape_char c rest :
  unescape (escape_char c +:+ rest) = Some (c, rest).
Proof.
  destruct c as [[] [] [] [] [] [] [] []]; reflexivity.
Qed.

Lemma unescape_quote rest : unescape (String dquote rest) = None.
Proof. reflexivity. Qed.

Lemma append_assoc_string (a b c : string) : (a +:+ b) +:+ c = a +:+ (b +:+ c).
Proof.
  induction a as [|x a IH]; [reflexivity|].
  change (String x ((a +:+ b) +:+ c) = String x (a +:+ (b +:+ c))).
  f_equal. exact IH.
Qed.

(** An escaped string followed by the closing quote can be read back in
    one way only. *)
Lemma escape_chars_delimited s1 :
  forall s2 r1 r2,
    escape_chars s1 +:+ String dquote r1 = escape_chars s2 +:+ String dquote r2 ->
    s1 = s2 /\ r1 = r2.
Proof.
  induction s1 as [|c1 s1 IH]; intros [|c2 s2] r1 r2 H.
  - change (String dquote r1 = String dquote r2) in H.
    inversion H. split; reflexivity.
  - exfalso. cbn [escape_chars] in H. rewrite append_assoc_string in H.
    apply (f_equal unescape) in H.
    rewrite unescape_escape_char in H.
    change (None = Some (c2, escape_chars s2 +:+ String dquote r2)) in H.
    discriminate H.
  - exfalso. cbn [escape_chars] in H. rewrite append_assoc_string in H.
    apply (f_equal unescape) in H.
    rewrite unescape_escape_char in H.
    change (Some (c1, escape_chars s1 +:+ String dquote r1) = None) in H.
    discriminate H.
  - cbn [escape_chars] in H. rewrite !append_assoc_string in H.
    pose proof (f_equal unescape H) as Hu.
    rewrite !unescape_escape_char in Hu. inversion Hu as [[Hc Hrest]]. subst c2.
    destruct (IH s2 r1 r2 Hrest) as (-> & ->). split; reflexivity.
Qed.

Lemma read_content s1 s2 r1 r2 :
  escape_chars s1 +:+ (String dquote "" +:+ r1) = escape_chars s2 +:+ (String dquote "" +:+ r2) ->
  s1 = s2 /\ r1 = r2.
Proof. exact (escape_chars_delimited s1 s2 r1 r2). Qed.

Lemma conversation_text_inj p1 d1 p2 d2 :
  json_dumps_indent4 (conversation p1 d1) = json_dumps_indent4 (conversation p2 d2) ->
  p1 = p2 /\ d1 = d2.
Proof.
  intros H.
  unfold json_dumps_indent4, conversation, message in H.
  cbv [iterencode map join encode_basestring] in H.
  rewrite !append_assoc_string in H.
  strip_common H.
  apply read_content in H. destruct H as [-> H].
  strip_common H.
  apply read_content in H. destruct H as [-> _].
  split; reflexivity.
Qed.

Section DryRunFile.

Context (backend : Backend).

(** X20. The file a dry run writes loses nothing of the conversation:
    two dry runs of [proxy_llm], by whatever gateways and in whatever
    worlds, leave the same text in their prompt files only if they had the
    same effective system prompt and the same digest. *)
Theorem dry_run_file_determines_the_conversation :
  forall (g1 g2 : proxy_llm.LLM) (d1 d2 : string) (o1 o2 : option string) (w1 w2 : World),
    proxy_llm.prompt_file_path g1 ∉ unwritable w1 ->
    proxy_llm.prompt_file_path g2 ∉ unwritable w2 ->
    files (world (snd (proxy_llm.generate_github_daily_report backend d1 o1 true
                         (mkSys g1 w1)))) !! proxy_llm.prompt_file_path g1
    = files (world (snd (proxy_llm.generate_github_daily_report backend d2 o2 true
                           (mkSys g2 w2)))) !! proxy_llm.prompt_file_path g2 ->
    effective_prompt o1 (proxy_llm.default_prompt g1)
    = effective_prompt o2 (proxy_llm.default_prompt g2)
    /\ d1 = d2.
Proof.
  intros g1 g2 d1 d2 o1 o2 w1 w2 Hw1 Hw2 Hsame.
  rewrite !proxy_dry_run in Hsame.
  rewrite (bool_decide_eq_false_2 _ Hw1), (bool_decide_eq_false_2 _ Hw2) in Hsame.
  cbn [snd world files with_files with_log] in Hsame.
  rewrite !lookup_insert_eq in Hsame.
  apply (inj Some) in Hsame.
  rewrite !prompt_or_effective in Hsame.
  exact (conversation_text_inj _ _ _ _ Hsame).
Qed.

End DryRunFile.

(** * The scenarios: witnesses and counterexamples *)

Example forwarded_gateway_is_built :
  proxy_llm.LLM_init None (Some "yesapi") None None None sample_world
  = (Ret forwarded_gateway, sample_world).
Proof. vm_compute. reflexivity. Qed.

Example local_gateway_is_built :
  proxy_llm.LLM_init None (Some "ollama") (Some "llama3.2") None None sample_world
  = (Ret local_gateway, sample_world).
Proof. vm_compute. reflexivity. Qed.

Example sample_dry_run_artifact :
  json_dumps_indent4 (conversation stored_prompt "- fix")
  = "[" +:+ String newline
    "    {" +:+ String newline
    "        " +:+ String dquote "role" +:+ String dquote ": " +:+ String dquote "system"
      +:+ String dquote "," +:+ String newline
    "        " +:+ String dquote "content" +:+ String dquote ": "
      +:+ String dquote "Summarize the following:" +:+ String dquote "" +:+ String newline
    "    }," +:+ String newline
    "    {" +:+ String newline
    "        " +:+ String dquote "role" +:+ String dquote ": " +:+ String dquote "user"
      +:+ String dquote "," +:+ String newline
    "        " +:+ String dquote "content" +:+ String dquote ": "
      +:+ String dquote "- fix" +:+ String dquote "" +:+ String newline
    "    }" +:+ String newline
    "]".
Proof. vm_compute. reflexivity. Qed.


(** Counterexample to C2 as stated. With all six attempts answered 500 the
    call returns the empty string, a value of the type of reports, and the
    very value it returns when the backend answers 200 with an empty list
    of choices: nothing in the outcome tells the exhausted retries from
    any other failure, so no reading of it yields the kind [Exhausted]. *)
Lemma exhausted_outcome_carries_no_kind :
  let exhausted :=
    fst (proxy_llm.generate_github_daily_report (failing_backend 500)
           sample_digest None false (mkSys forwarded_gateway sample_world)) in
  let empty :=
    fst (proxy_llm.generate_github_daily_report
           (fixed_backend (JObj [("choices", JArr [])]))
           sample_digest None false (mkSys forwarded_gateway sample_world)) in
  exhausted = Ret (JStr "")
  /\ empty = Ret (JStr "")
  /\ ~ (exists kind_of : res json -> failure_kind,
          kind_of exhausted = Exhausted /\ kind_of empty = EmptyResponse).
Proof.
  assert (H1 : fst (proxy_llm.generate_github_daily_report (failing_backend 500)
                      sample_digest None false (mkSys forwarded_gateway sample_world))
               = Ret (JStr "")) by (vm_compute; reflexivity).
  assert (H2 : fst (proxy_llm.generate_github_daily_report
                      (fixed_backend (JObj [("choices", JArr [])]))
                      sample_digest None false (mkSys forwarded_gateway sample_world))
               = Ret (JStr "")) by (vm_compute; reflexivity).
  cbv zeta. rewrite H1, H2. split; [reflexivity|]. split; [reflexivity|].
  intros (kind_of & Ha & Hb). rewrite Ha in Hb. discriminate Hb.
Qed.

(** Witness of C2 (amended). *)
Lemma exhausted_retries_return_empty_string_witness :
  let out := proxy_llm.generate_github_daily_report (failing_backend 500)
               sample_digest None false (mkSys forwarded_gateway sample_world) in
  fst out = Ret (JStr "")
  /\ proxy_llm.max_retries forwarded_gateway = 5
  /\ exists req, net (world (snd out)) = ([] ++ repeat (HttpCall req) 6)%list.
Proof.
  apply (exhausted_retries_return_empty_string (failing_backend 500)
           None "yesapi" None None None sample_world sample_world forwarded_gateway
           sample_digest None sample_world).
  - vm_compute. reflexivity.
  - left. reflexivity.
  - intros i req Hi. reflexivity.
Defined.

(** Counterexample to C4 as stated: an override that is present and empty.
    The system message sent is the stored default, not the override. *)
Lemma empty_override_is_not_the_system_message :
  let out := proxy_llm.generate_github_daily_report (echo_backend "ok")
               sample_digest (Some "") false (mkSys forwarded_gateway sample_world) in
  exists req,
    net (world (snd out)) = [HttpCall req]
    /\ call_messages (HttpCall req) = Some (conversation stored_prompt sample_digest)
    /\ conversation stored_prompt sample_digest <> conversation "" sample_digest.
Proof.
  vm_compute. eexists. split; [reflexivity|]. split; [reflexivity|].
  intros H. discriminate H.
Qed.

(** Witness of C5. *)
Lemma retries_then_success_witness :
  fst (proxy_llm.generate_github_daily_report (flaky_backend 2 "Two changes landed.")
         sample_digest None false (mkSys forwarded_gateway sample_world))
  = Ret (JStr "Two changes landed.")
  /\ exists req,
       net (world (snd (proxy_llm.generate_github_daily_report
                          (flaky_backend 2 "Two changes landed.")
                          sample_digest None false (mkSys forwarded_gateway sample_world))))
       = ([] ++ repeat (HttpCall req) 3)%list
       /\ r_json req
          = JObj [("model", JStr "gpt-4o-mini");
                  ("messages", conversation stored_prompt sample_digest);
                  ("temperature", JNum 1); ("max_tokens", JNum 100); ("top_p", JNum 1)].
Proof.
  apply (retries_then_success (flaky_backend 2 "Two changes landed.")
           forwarded_gateway
           (proxy_llm.CustomHTTPClient_init (Some "sk-test") (Some proxy_llm.API_URL) 5 2000)
           sample_digest None sample_world 2 None (completion "Two changes landed.")
           "Two changes landed.").
  - reflexivity.
  - reflexivity.
  - reflexivity.
  - cbn. lia.
  - intros i req Hi. destruct i as [|[|i]]; [reflexivity|reflexivity|lia].
  - intros req. reflexivity.
  - reflexivity.
Defined.

(** Counterexample to C6 as stated. The local server answers 200 with an
    object that has no [message]; the call returns the empty string, as for
    any other failure, and of the three records it logs none holds the
    body: the record meant to hold it is never written, because reading
    [response.text] on the parsed dict raises. *)
Lemma shapeless_response_is_neither_typed_nor_logged :
  let out := proxy_llm.generate_github_daily_report (fixed_backend shapeless_body)
               sample_digest None false (mkSys local_gateway sample_world) in
  fst out = Ret (JStr "")
  /\ log (world (snd out))
     = [mkLog INFO "Starting report generation using ollama--llama3.2 model." NoArg;
        mkLog ERROR "An error occurred while getting the response: "
          (ExnArg (AttributeError "dict" "text"));
        mkLog ERROR "Failed to get a valid response from the GPT model." NoArg]
  /\ Forall (fun entry => log_payload entry <> ValArg shapeless_body)
       (log (world (snd out))).
Proof.
  vm_compute. split; [reflexivity|]. split; [reflexivity|].
  repeat constructor; intros H; discriminate H.
Qed.

(** Witness of C6 (amended). *)
Lemma local_response_without_content_witness :
  fst (proxy_llm.generate_github_daily_report (fixed_backend shapeless_body)
         sample_digest None false (mkSys local_gateway sample_world))
  = Ret (JStr "").
Proof.
  apply (local_response_without_content_returns_empty_string (fixed_backend shapeless_body)
           local_gateway
           (proxy_llm.CustomHTTPClient_init None (Some proxy_llm.OLLAMA_API_URL) 5 2000)
           sample_digest None sample_world None
           [("model", JStr "llama3.2"); ("done", JBool true)]).
  - reflexivity.
  - reflexivity.
  - reflexivity.
  - intros req. reflexivity.
  - reflexivity.
Defined.

(** Counterexample to C7 as stated. With every attempt answered 500 the
    five delays are 0, 2, 4, 8 and 16 seconds, not 1, 2, 3, 4 and 5: the
    wait after the [n]-th attempt is not [n] times the base. And when the
    backend asks for 7 seconds in [Retry-After], the five delays are 7
    seconds each: the wait then follows the response, not the index. *)
Lemma backoff_is_not_linear :
  let out := proxy_llm.generate_github_daily_report (failing_backend 500)
               sample_digest None false (mkSys forwarded_gateway sample_world) in
  let out' := proxy_llm.generate_github_daily_report (throttling_backend 7)
                sample_digest None false (mkSys forwarded_gateway sample_world) in
  sleeps (world (snd out)) = [0; 2; 4; 8; 16]
  /\ sleeps (world (snd out)) <> map (fun n => n * 1) [1; 2; 3; 4; 5]
  /\ sleeps (world (snd out')) = [7; 7; 7; 7; 7].
Proof.
  vm_compute. split; [reflexivity|]. split; [|reflexivity]. intros H. discriminate H.
Qed.

(** Witness of C7 (amended). *)
Lemma backoff_doubles_with_the_attempt_index_witness :
  let out := proxy_llm.generate_github_daily_report (failing_backend 500)
               sample_digest None false (mkSys forwarded_gateway sample_world) in
  exists a,
    a <= 5 + 1
    /\ length (net (world (snd out))) = 0 + a
    /\ sleeps (world (snd out)) = ([] ++ map backoff_delay (seq 1 (a - 1)))%list.
Proof.
  apply (backoff_doubles_with_the_attempt_index (failing_backend 500) forwarded_gateway
           (proxy_llm.CustomHTTPClient_init (Some "sk-test") (Some proxy_llm.API_URL) 5 2000)
           sample_digest None sample_world).
  - reflexivity.
  - reflexivity.
  - intros i q. reflexivity.
Defined.

(** Counterexample to C8 as stated. A forwarding gateway built while the
    environment holds no key, or an empty one, sends its request without
    any [Authorization] header. *)
Lemma missing_credential_sends_no_authorization :
  (exists g req,
     proxy_llm.LLM_init None (Some "yesapi") None None None keyless_world
     = (Ret g, keyless_world)
     /\ net (world (snd (proxy_llm.generate_github_daily_report (echo_backend "ok")
                           sample_digest None false (mkSys g keyless_world))))
        = [HttpCall req]
     /\ header "Authorization" (r_headers req) = None)
  /\ (exists g req,
        proxy_llm.LLM_init None (Some "yesapi") None None None empty_key_world
        = (Ret g, empty_key_world)
        /\ net (world (snd (proxy_llm.generate_github_daily_report (echo_backend "ok")
                              sample_digest None false (mkSys g empty_key_world))))
           = [HttpCall req]
        /\ header "Authorization" (r_headers req) = None).
Proof.
  split; eexists _, _; (split; [vm_compute; reflexivity|]);
    (split; [vm_compute; reflexivity|]); reflexivity.
Qed.

(** Witness of C8 (amended). *)
Lemma forwarded_request_shape_witness :
  let out := proxy_llm.generate_github_daily_report (echo_backend "ok")
               sample_digest None false (mkSys forwarded_gateway sample_world) in
  exists req a,
    1 <= a
    /\ net (world (snd out)) = ([] ++ repeat (HttpCall req) a)%list
    /\ r_method req = "POST"
    /\ r_url req = proxy_llm.API_URL
    /\ r_json req
       = JObj [("model", JStr "gpt-4o-mini");
               ("messages", conversation (effective_prompt None stored_prompt) sample_digest);
               ("temperature", JNum 1); ("max_tokens", JNum 100); ("top_p", JNum 1)]
    /\ header "Authorization" (r_headers req) = Some "Bearer sk-test".
Proof.
  apply (forwarded_request_shape (echo_backend "ok") forwarded_gateway
           (Some "sk-test") (Some proxy_llm.API_URL) 2000
           sample_digest None sample_world).
  - reflexivity.
  - reflexivity.
Defined.


(** ** Witnesses of the further properties *)




(** Witness of X5: six refused connections. *)
Lemma unreachable_backend_returns_empty_string_witness :
  let out := proxy_llm.generate_github_daily_report unreachable_backend
               sample_digest None false (mkSys forwarded_gateway sample_world) in
  fst out = Ret (JStr "")
  /\ exists req, net (world (snd out)) = ([] ++ repeat (HttpCall req) 6)%list.
Proof.
  apply (unreachable_backend_returns_empty_string unreachable_backend forwarded_gateway
           (proxy_llm.CustomHTTPClient_init (Some "sk-test") (Some proxy_llm.API_URL) 5 2000)
           sample_digest None sample_world).
  - left. reflexivity.
  - reflexivity.
  - reflexivity.
  - intros i req Hi. reflexivity.
Defined.

(** Witness of X6: a gateway built for [azure]. *)
Lemma unknown_model_type_raises_on_live_generation_witness :
  proxy_llm.client clientless_gateway = None
  /\ proxy_llm.generate_github_daily_report (echo_backend "Two changes landed.")
       sample_digest None false (mkSys clientless_gateway sample_world)
     = (Raise (AttributeError "LLM" "client"),
        mkSys clientless_gateway
          (with_log (log sample_world ++ [start_entry clientless_gateway]) sample_world)).
Proof.
  apply (unknown_model_type_raises_on_live_generation (echo_backend "Two changes landed.")
           None "azure" None None None sample_world sample_world clientless_gateway
           sample_digest None sample_world).
  - vm_compute. reflexivity.
  - intros H. discriminate H.
  - intros H. discriminate H.
  - intros H. discriminate H.
Defined.

(** Witness of X7: the SDK answers with one choice. *)
Lemma direct_generation_reports_first_choice_witness :
  let out := proxy_llm.generate_github_daily_report (echo_backend "Two changes landed.")
               sample_digest None false (mkSys direct_gateway sample_world) in
  let out' := llm.generate_daily_report (echo_backend "Two changes landed.")
                sample_digest None false (mkSys plain_direct_gateway sample_world) in
  fst out = Ret (JStr "Two changes landed.")
  /\ fst out' = Ret (JStr "Two changes landed.")
  /\ (exists data, net (world (snd out)) = ([] ++ [SdkCall data])%list)
  /\ (exists data, net (world (snd out')) = ([] ++ [SdkCall data])%list).
Proof.
  apply (direct_generation_reports_first_choice (echo_backend "Two changes landed.")
           direct_gateway plain_direct_gateway sample_digest None sample_world
           (SdkCompletion [Some "Two changes landed."])).
  - reflexivity.
  - reflexivity.
  - reflexivity.
  - intros data. reflexivity.
Defined.


(** Witness of X9: the gateway for the local server built in
    [sample_world]. *)
Lemma local_request_shape_witness :
  let out := proxy_llm.generate_github_daily_report (echo_backend "Two changes landed.")
               sample_digest None false (mkSys local_gateway sample_world) in
  exists a,
    1 <= a <= 6
    /\ net (world (snd out))
       = ([] ++ repeat
                  (HttpCall
                     (mkRequest "POST" "http://localhost:11434/api/chat" []
                        [("http", "http://localhost:11434/api/chat");
                         ("https", "http://localhost:11434/api/chat")]
                        (JObj [("model", JStr "llama3.2");
                               ("messages", conversation stored_prompt sample_digest);
                               ("max_tokens", JNum 10000); ("context_length", JNum 10000);
                               ("top_p", JNum 1); ("temperature", JNum 1);
                               ("stream", JBool false)])
                        2000%Z)) a)%list.
Proof.
  apply (local_request_shape (echo_backend "Two changes landed.")
           None (Some "llama3.2") None None sample_world sample_world local_gateway
           sample_digest None sample_world).
  vm_compute. reflexivity.
Defined.



(** Witness of X12: the gateway of [llm] built in [proxied_world]. *)
Lemma llm_request_shape_witness :
  let out := llm.generate_daily_report (echo_backend "Two changes landed.")
               sample_digest None false (mkSys plain_gateway sample_world) in
  exists a,
    1 <= a <= 6
    /\ net (world (snd out))
       = ([] ++ repeat
                  (HttpCall
                     (mkRequest "POST" "https://api.yesapikey.com/v1/chat/completions"
                        [("Authorization", "Bearer sk-test");
                         ("Content-Type", "application/json")]
                        [("http", "http://127.0.0.1:7890"); ("https", "http://127.0.0.1:7890")]
                        (JObj [("model", JStr "gpt-4o-mini");
                               ("messages", conversation stored_prompt sample_digest);
                               ("temperature", JNum 1); ("max_tokens", JNum 1000);
                               ("top_p", JNum 1)])
                        30%Z)) a)%list.
Proof.
  apply (llm_request_shape (echo_backend "Two changes landed.")
           None None proxied_world proxied_world plain_gateway "http://127.0.0.1:7890"
           sample_digest None sample_world).
  - vm_compute. reflexivity.
  - vm_compute. reflexivity.
  - intros H. discriminate H.
Defined.

(** Witness of X16: the second row of [broken_page] has no title line. *)
Lemma malformed_row_aborts_export_witness :
  hacker_news_client.export_top_stories (Page 200 broken_page) sample_clock None None
    sample_world
  = (Raise (AttributeError "NoneType" "find"),
     with_log (log sample_world ++ [export_begins]) sample_world).
Proof.
  apply (malformed_row_aborts_export sample_clock 200 broken_page bare_row None None
           sample_world).
  - reflexivity.
  - vm_compute. right. left. reflexivity.
  - reflexivity.
Defined.

(** Witness of X17: the site answers 503. *)
Lemma failed_fetch_exports_nothing_witness :
  let out := hacker_news_client.export_top_stories (Page 503 front_page) sample_clock
               None None sample_world in
  fst out = Ret None
  /\ files (snd out) = files sample_world
  /\ exists kind,
       log (snd out)
       = (log sample_world
          ++ [export_begins;
              mkLog ERROR "获取Hacker News的热门新闻失败："
                (ExnArg (RequestException kind));
              mkLog ERROR "无法获取Hacker News的热门新闻。" NoArg])%list.
Proof.
  apply (failed_fetch_exports_nothing (Page 503 front_page) sample_clock None None
           sample_world).
  reflexivity.
Defined.

(** Witness of X18: the date of the docstring. *)
Lemma export_path_spec_witness :
  export_path "2024-12-03" "09" = "daily_progress/hacker_news/2024-12-03/09.md".
Proof.
  apply (export_path_spec "2024-12-03" "09").
  - reflexivity.
  - reflexivity.
  - intros H. discriminate H.
Defined.

(** Witness of X19: the two stories of [front_page], at the date and the
    hour of the clock. *)
Lemma export_writes_numbered_stories_witness :
  let out := hacker_news_client.export_top_stories (Page 200 front_page) sample_clock
               None None sample_world in
  fst out = Ret (Some "daily_progress/hacker_news/2024-12-03/09.md")
  /\ files (snd out)
     = <["daily_progress/hacker_news/2024-12-03/09.md" :=
           "1. [Show HN: A prover](https://example.org/prover)" +:+ String newline ""
           +:+ "2. [Ask HN: Which logic?](item?id=2)" +:+ String newline ""]>
         (files sample_world)
  /\ log (snd out)
     = (log sample_world
        ++ [export_begins; export_done "daily_progress/hacker_news/2024-12-03/09.md"])%list.
Proof.
  apply (export_writes_numbered_stories sample_clock 200 front_page None None sample_world).
  - reflexivity.
  - reflexivity.
  - intros H. discriminate H.
  - intros H. vm_compute in H. discriminate H.
  - intros H. vm_compute in H. discriminate H.
Defined.

(** Witness of X20: the same dry run by two gateways. *)
Lemma dry_run_file_determines_the_conversation_witness :
  effective_prompt None (proxy_llm.default_prompt local_gateway)
  = effective_prompt (Some stored_prompt) (proxy_llm.default_prompt forwarded_gateway)
  /\ sample_digest = sample_digest.
Proof.
  apply (dry_run_file_determines_the_conversation (echo_backend "Two changes landed.")
           local_gateway forwarded_gateway sample_digest sample_digest
           None (Some stored_prompt) sample_world keyless_world).
  - intros H. vm_compute in H. discriminate H.
  - intros H. vm_compute in H. discriminate H.
  - vm_compute. reflexivity.
Defined.
